(** * AHELP backend: a shallow embedding of [AHELP/backend/server.js]

    The Express handlers of the backend are embedded as functions over an
    explicit [world] (the three JSON files of the data directory and the
    console).  JavaScript values are an inductive type; numbers are IEEE 754
    binary64 values ([spec_float] at precision 53); an uncaught exception is
    a [Throw] that Express turns into a 500 answer. *)

From Stdlib Require Import ZArith String Ascii List Bool Lia SpecFloat.
Import ListNotations.
Local Open Scope string_scope.

(* ===================================================================== *)
(** * JavaScript values *)
(* ===================================================================== *)

Module Js.

(** A JavaScript Number is a binary64 float. *)
Definition number := spec_float.
Definition prec : Z := 53.
Definition emax : Z := 1024.

Definition num_add (x y : number) : number := SFadd prec emax x y.

Definition num_of_Z (z : Z) : number :=
  match z with
  | Z0 => S754_zero false
  | _ => binary_normalize prec emax z 0 false
  end.

Definition num_is_nan (x : number) : bool :=
  match x with S754_nan => true | _ => false end.

Definition num_is_zero (x : number) : bool :=
  match x with S754_zero _ => true | _ => false end.

(** [Number.isFinite]. *)
Definition num_is_finite (x : number) : bool :=
  match x with S754_zero _ | S754_finite _ _ _ => true | _ => false end.

(** The values a JSON body or a JSON file can hold, plus [undefined]. An
    object is the list of its own properties in insertion order. *)
#[warnings="-register-all"]
Inductive value : Type :=
| VUndefined
| VNull
| VBool (b : bool)
| VNum (n : number)
| VStr (s : string)
| VArr (elems : list value)
| VObj (props : list (string * value)).

(** [typeof v]. *)
Definition typeof (v : value) : string :=
  match v with
  | VUndefined => "undefined"
  | VNull => "object"
  | VBool _ => "boolean"
  | VNum _ => "number"
  | VStr _ => "string"
  | VArr _ => "object"
  | VObj _ => "object"
  end.

(** ToBoolean: [undefined], [null], [false], [0], [-0], [NaN] and the empty
    string are falsy, everything else is truthy. *)
Definition truthy (v : value) : bool :=
  match v with
  | VUndefined | VNull => false
  | VBool b => b
  | VNum n => negb (num_is_zero n || num_is_nan n)
  | VStr s => negb (String.eqb s EmptyString)
  | VArr _ | VObj _ => true
  end.

(** [a || b] and [!a]. *)
Definition or_else (a b : value) : value := if truthy a then a else b.
Definition falsy (a : value) : bool := negb (truthy a).

(** [v == null]: true for [null] and [undefined] only. *)
Definition eq_null (v : value) : bool :=
  match v with VUndefined | VNull => true | _ => false end.

(** [a === b].  Every comparison in the server has one operand read from a
    parsed file and the other from the request, so two arrays or objects
    are never the same reference: they compare unequal. *)
Definition strict_eq (a b : value) : bool :=
  match a, b with
  | VUndefined, VUndefined => true
  | VNull, VNull => true
  | VBool x, VBool y => Bool.eqb x y
  | VNum x, VNum y => SFeqb x y
  | VStr x, VStr y => String.eqb x y
  | _, _ => false
  end.

(** Exceptions and results. *)
Inductive exn : Type :=
| TypeError (msg : string)
| SyntaxError (msg : string)
| SystemError (msg : string).

Inductive result (A : Type) : Type :=
| Ok (a : A)
| Throw (e : exn).
Arguments Ok {A} a.
Arguments Throw {A} e.

Definition bind {A B : Type} (r : result A) (k : A -> result B) : result B :=
  match r with
  | Ok a => k a
  | Throw e => Throw e
  end.

(** Own properties of an object. *)
Fixpoint lookup (k : string) (ps : list (string * value)) : option value :=
  match ps with
  | [] => None
  | (k', v) :: rest => if String.eqb k k' then Some v else lookup k rest
  end.

(** The value of own property [k], [undefined] when there is none. *)
Definition prop (k : string) (ps : list (string * value)) : value :=
  match lookup k ps with
  | Some x => x
  | None => VUndefined
  end.

(** [v.k] for the property names the handlers read (never ["length"], an
    index or an inherited name): reading from [null] or [undefined] throws,
    a primitive or an array has no such property. *)
Definition get_prop (v : value) (k : string) : result value :=
  match v with
  | VUndefined => Throw (TypeError "Cannot read properties of undefined")
  | VNull => Throw (TypeError "Cannot read properties of null")
  | VObj ps => Ok (prop k ps)
  | _ => Ok VUndefined
  end.

(** [o.k = x] on an object: replace in place, or append a new property. *)
Fixpoint assign (k : string) (x : value) (ps : list (string * value))
  : list (string * value) :=
  match ps with
  | [] => [(k, x)]
  | (k', v) :: rest =>
      if String.eqb k k' then (k', x) :: rest else (k', v) :: assign k x rest
  end.

(** [v.k = x] in sloppy mode: on a primitive the assignment is dropped; on
    an array it creates a named property, which no serialisation shows. *)
Definition set_prop (v : value) (k : string) (x : value) : result value :=
  match v with
  | VUndefined => Throw (TypeError "Cannot set properties of undefined")
  | VNull => Throw (TypeError "Cannot set properties of null")
  | VObj ps => Ok (VObj (assign k x ps))
  | _ => Ok v
  end.

(** [const { k1, k2, ...rest } = o]: the own properties except the named
    ones, in order. *)
Definition omit (ks : list string) (ps : list (string * value))
  : list (string * value) :=
  filter (fun p => negb (existsb (String.eqb (fst p)) ks)) ps.

Definition has_key (k : string) (v : value) : bool :=
  match v with
  | VObj ps => existsb (fun p => String.eqb k (fst p)) ps
  | _ => false
  end.

End Js.
Import Js.

(* ===================================================================== *)
(** * JSON serialisation and the data directory *)
(* ===================================================================== *)

(** What [JSON.parse (JSON.stringify v)] gives back: [NaN] and the
    infinities become [null], [-0] becomes [0], an [undefined] array slot
    becomes [null] and an [undefined] property is left out. *)
Fixpoint json_image (v : value) : value :=
  match v with
  | VNum n =>
      if num_is_finite n
      then VNum (if num_is_zero n then S754_zero false else n)
      else VNull
  | VArr l =>
      VArr (map (fun x => match x with
                          | VUndefined => VNull
                          | _ => json_image x
                          end) l)
  | VObj ps =>
      VObj ((fix props (ps : list (string * value)) :=
               match ps with
               | [] => []
               | (k, VUndefined) :: rest => props rest
               | (k, x) :: rest => (k, json_image x) :: props rest
               end) ps)
  | _ => v
  end.

(** The same, on an array slot and on the properties of an object. *)
Definition json_slot (x : value) : value :=
  match x with
  | VUndefined => VNull
  | _ => json_image x
  end.

Fixpoint json_props (ps : list (string * value)) : list (string * value) :=
  match ps with
  | [] => []
  | (k, VUndefined) :: rest => json_props rest
  | (k, x) :: rest => (k, json_image x) :: json_props rest
  end.

(** The text of a file, by what [JSON.parse] makes of it: the empty text,
    a text that is not JSON, or a JSON text, held as the value it denotes. *)
Inductive text : Type :=
| Blank
| Malformed (raw : string)
| Json (doc : value).

(** [JSON.parse]. *)
Definition JSON_parse (t : text) : result value :=
  match t with
  | Blank => Throw (SyntaxError "Unexpected end of JSON input")
  | Malformed _ => Throw (SyntaxError "Unexpected token")
  | Json doc => Ok doc
  end.

(** [JSON.stringify (v, null, 2)]; [None] is its [undefined] answer. *)
Definition JSON_stringify (v : value) : option text :=
  match v with
  | VUndefined => None
  | _ => Some (Json (json_image v))
  end.

(** [data || '[]'] on the text read from a file. *)
Definition text_or_empty_array (t : text) : text :=
  match t with
  | Blank => Json (VArr [])
  | _ => t
  end.

Inductive path : Type := usersFile | communityFile | progressFile.

Definition path_name (p : path) : string :=
  match p with
  | usersFile => "data/users.json"
  | communityFile => "data/community.json"
  | progressFile => "data/progress.json"
  end.

(** A file of the data directory: absent, present but failing to be read,
    or holding a text. *)
Inductive file : Type :=
| Missing
| Unreadable
| Stored (t : text).

(** The state a request runs in and leaves behind. [write_ok] tells for
    which files [fs.writeFileSync] succeeds; a write that fails is taken to
    leave the file as it was (a write cut short is not modelled).
    [console] is what [console.error] has printed, oldest first. *)
Record world : Type := World {
  users : file;
  community : file;
  progress : file;
  write_ok : path -> bool;
  console : list string
}.

Definition file_at (p : path) (w : world) : file :=
  match p with
  | usersFile => users w
  | communityFile => community w
  | progressFile => progress w
  end.

Definition put_file (p : path) (f : file) (w : world) : world :=
  match p with
  | usersFile => World f (community w) (progress w) (write_ok w) (console w)
  | communityFile => World (users w) f (progress w) (write_ok w) (console w)
  | progressFile => World (users w) (community w) f (write_ok w) (console w)
  end.

(** ** Effects: a state-and-exception monad over [world] *)

Definition io (A : Type) : Type := world -> result A * world.

Definition ret {A : Type} (a : A) : io A := fun w => (Ok a, w).

Definition raise {A : Type} (e : exn) : io A := fun w => (Throw e, w).

Definition io_bind {A B : Type} (m : io A) (k : A -> io B) : io B :=
  fun w =>
    match m w with
    | (Ok a, w') => k a w'
    | (Throw e, w') => (Throw e, w')
    end.

(** A pure computation that may throw. *)
Definition lift {A : Type} (r : result A) : io A := fun w => (r, w).

(** [try { body } catch (err) { handler }]. *)
Definition try_catch {A : Type} (body : io A) (handler : exn -> io A) : io A :=
  fun w =>
    match body w with
    | (Ok a, w') => (Ok a, w')
    | (Throw e, w') => handler e w'
    end.

Declare Scope io_scope.
Delimit Scope io_scope with io.
Notation "x <- m ;; k" := (io_bind m (fun x => k))
  (at level 61, m at next level, right associativity) : io_scope.
Notation "m ;;; k" := (io_bind m (fun _ => k))
  (at level 61, right associativity) : io_scope.
Local Open Scope io_scope.

Definition existsSync (p : path) : io bool :=
  fun w => (Ok (match file_at p w with Missing => false | _ => true end), w).

Definition readFileSync (p : path) : io text :=
  fun w =>
    match file_at p w with
    | Missing => (Throw (SystemError "ENOENT"), w)
    | Unreadable => (Throw (SystemError "EACCES"), w)
    | Stored t => (Ok t, w)
    end.

Definition writeFileSync (p : path) (data : option text) : io unit :=
  fun w =>
    match data with
    | None => (Throw (TypeError "ERR_INVALID_ARG_TYPE"), w)
    | Some t =>
        if write_ok w p
        then (Ok tt, put_file p (Stored t) w)
        else (Throw (SystemError "EIO"), w)
    end.

Definition console_error (msg : string) : io unit :=
  fun w => (Ok tt, World (users w) (community w) (progress w) (write_ok w)
                         (console w ++ [msg])).

(** ** [readJson] and [writeJson] *)

Definition readJson (p : path) : io value :=
  try_catch
    (present <- existsSync p ;;
     if negb present then ret (VArr [])
     else
       data <- readFileSync p ;;
       lift (JSON_parse (text_or_empty_array data)))
    (fun err =>
       console_error ("Error reading " ++ path_name p) ;;;
       ret (VArr [])).

Definition writeJson (p : path) (data : value) : io unit :=
  try_catch
    (writeFileSync p (JSON_stringify data))
    (fun err => console_error ("Error writing " ++ path_name p)).

(* ===================================================================== *)
(** * The server *)
(* ===================================================================== *)

(** What a request finds outside the data directory: the sixteen random
    bytes of [crypto.randomBytes], in hex, and the clock reading
    [new Date().toISOString()]. *)
Record env : Type := Env {
  random_hex : string;
  now_iso : string
}.

(** What the client gets: a JSON answer, or the 500 answer of Express for
    an exception no handler caught. *)
Inductive response : Type :=
| Reply (status : nat) (body : value)
| Uncaught (e : exn).

(** [res.json] serialises the body: this is what the client parses. *)
Definition wire (r : response) : response :=
  match r with
  | Reply st b => Reply st (json_image b)
  | Uncaught e => Uncaught e
  end.

Definition error_body (msg : string) : value := VObj [("error", VStr msg)].
Definition message_body (msg : string) : value := VObj [("message", VStr msg)].

(** ** Array methods *)

(** The loop of [Array.prototype.find]: the first element, with its index,
    on which the callback answers true. *)
Fixpoint find_from (i : nat) (pred : value -> result bool) (l : list value)
  : result (option (nat * value)) :=
  match l with
  | [] => Ok None
  | x :: rest =>
      bind (pred x) (fun b =>
        if b then Ok (Some (i, x)) else find_from (S i) pred rest)
  end.

(** [arr.find (pred)]; a value that is no array has no [find] method. *)
Definition Array_find (arr : value) (pred : value -> result bool)
  : result (option (nat * value)) :=
  match arr with
  | VArr l => find_from 0 pred l
  | _ => Throw (TypeError "find is not a function")
  end.

(** The value [find] returns: the element, or [undefined]. *)
Definition found (r : option (nat * value)) : value :=
  match r with
  | Some (_, x) => x
  | None => VUndefined
  end.

Fixpoint filter_with (pred : value -> result bool) (l : list value)
  : result (list value) :=
  match l with
  | [] => Ok []
  | x :: rest =>
      bind (pred x) (fun b =>
        bind (filter_with pred rest) (fun rest' =>
          Ok (if b then x :: rest' else rest')))
  end.

Definition Array_filter (arr : value) (pred : value -> result bool)
  : result value :=
  match arr with
  | VArr l => bind (filter_with pred l) (fun l' => Ok (VArr l'))
  | _ => Throw (TypeError "filter is not a function")
  end.

Definition Array_push (arr : value) (x : value) : result value :=
  match arr with
  | VArr l => Ok (VArr (l ++ [x]))
  | _ => Throw (TypeError "push is not a function")
  end.

(** The array after one of its elements, held by reference, was mutated. *)
Fixpoint replace_at (i : nat) (x : value) (l : list value) : list value :=
  match l, i with
  | [], _ => []
  | _ :: rest, O => x :: rest
  | y :: rest, S j => y :: replace_at j x rest
  end.

Definition with_element (arr : value) (i : nat) (x : value) : value :=
  match arr with
  | VArr l => VArr (replace_at i x l)
  | _ => arr
  end.

(** The callback [(u) => u.username === name]. *)
Definition has_username (name : value) (u : value) : result bool :=
  bind (get_prop u "username") (fun x => Ok (strict_eq x name)).

Section Server.

(** Two functions of the runtime, taken as they are: the decimal text of a
    Number, and HMAC-SHA-256 of [data] under [key] as a hex digest. *)
Variable Number_toString : number -> string.
Variable hmac_sha256_hex : forall (key data : string), string.

(** ** The [+] operator *)

(** ToString.  An object parsed from JSON has no callable property of its
    own: when it has a [toString] of its own neither that nor [valueOf]
    gives a primitive and the conversion throws; otherwise
    [Object.prototype.toString] answers.  An array is joined, its elements
    converted in turn, [null] and [undefined] as the empty string. *)
Fixpoint to_string (v : value) : result string :=
  match v with
  | VUndefined => Ok "undefined"
  | VNull => Ok "null"
  | VBool b => Ok (if b then "true" else "false")
  | VNum n => Ok (Number_toString n)
  | VStr s => Ok s
  | VArr l =>
      (fix join (l : list value) : result string :=
         match l with
         | [] => Ok EmptyString
         | x :: rest =>
             match (match x with
                    | VUndefined | VNull => Ok EmptyString
                    | _ => to_string x
                    end) with
             | Throw err => Throw err
             | Ok sx =>
                 match rest with
                 | [] => Ok sx
                 | _ =>
                     match join rest with
                     | Throw err => Throw err
                     | Ok sr => Ok (sx ++ "," ++ sr)
                     end
                 end
             end
         end) l
  | VObj ps =>
      if existsb (fun p => String.eqb "toString" (fst p)) ps
      then Throw (TypeError "Cannot convert object to primitive value")
      else Ok "[object Object]"
  end.

(** ToPrimitive: an array or an object is reduced to its string. *)
Definition to_primitive (v : value) : result value :=
  match v with
  | VArr _ | VObj _ => bind (to_string v) (fun s => Ok (VStr s))
  | _ => Ok v
  end.

(** ToNumber on a primitive that is not a string. *)
Definition to_number (v : value) : number :=
  match v with
  | VNull => S754_zero false
  | VBool b => if b then num_of_Z 1 else S754_zero false
  | VNum n => n
  | _ => S754_nan
  end.

(** [a + b]: both sides are reduced to primitives, the left one first;
    concatenation as soon as one of them is a string, addition of Numbers
    otherwise. *)
Definition add (a b : value) : result value :=
  bind (to_primitive a) (fun pa =>
  bind (to_primitive b) (fun pb =>
    match pa, pb with
    | VStr x, _ => bind (to_string pb) (fun y => Ok (VStr (x ++ y)))
    | _, VStr y => bind (to_string pa) (fun x => Ok (VStr (x ++ y)))
    | _, _ => Ok (VNum (num_add (to_number pa) (to_number pb)))
    end)).

(** ** Credentials *)

(** [crypto.createHmac ('sha256', key).update (data).digest ('hex')]: the
    key, then the data, must be strings (a JSON value is never a Buffer). *)
Definition hmac_hex (key data : value) : result string :=
  match key with
  | VStr k =>
      match data with
      | VStr d => Ok (hmac_sha256_hex k d)
      | _ => Throw (TypeError "The data argument must be of type string")
      end
  | _ => Throw (TypeError "The key argument must be of type string")
  end.

(** Lines 73-74 of the register handler: a fresh salt and the keyed hash
    of the password under it, as the pair (hash, salt). *)
Definition derive_credential (e : env) (password : value)
  : result (string * string) :=
  let salt := random_hex e in
  bind (hmac_hex (VStr salt) password) (fun hash => Ok (hash, salt)).

(** Lines 104-105 of the login handler: the hash recomputed under the
    stored salt is compared with the stored hash. *)
Definition verify_credential (password passwordHash salt : value)
  : result bool :=
  bind (hmac_hex salt password) (fun hash =>
    Ok (strict_eq (VStr hash) passwordHash)).

(** ** User endpoints *)

(** The text [The "points" field must be a number.] *)
Definition points_must_be_number : string :=
  "The " ++ String "034"%char "points" ++ String "034"%char " field must be a number.".

(** [const { passwordHash, salt, ...safeUser } = user]. A string or an array
    also spreads, into its indexed elements; no such [user] gets here. *)
Definition safeUser (user : value) : result value :=
  match user with
  | VUndefined | VNull => Throw (TypeError "Cannot destructure")
  | VObj ps => Ok (VObj (omit ["passwordHash"; "salt"] ps))
  | _ => Ok (VObj [])
  end.

(** POST /api/register *)
Definition post_register (e : env) (body : value) : io response :=
  username <- lift (get_prop body "username") ;;
  password <- lift (get_prop body "password") ;;
  name <- lift (get_prop body "name") ;;
  agency <- lift (get_prop body "agency") ;;
  age <- lift (get_prop body "age") ;;
  gender <- lift (get_prop body "gender") ;;
  height <- lift (get_prop body "height") ;;
  weight <- lift (get_prop body "weight") ;;
  exercise <- lift (get_prop body "exercise") ;;
  fruitsVeg <- lift (get_prop body "fruitsVeg") ;;
  water <- lift (get_prop body "water") ;;
  tobacco <- lift (get_prop body "tobacco") ;;
  if falsy username || falsy password then
    ret (Reply 400 (error_body "Username and password are required."))
  else
    users <- readJson usersFile ;;
    existing <- lift (Array_find users (has_username username)) ;;
    if truthy (found existing) then
      ret (Reply 400 (error_body "Username already exists."))
    else
      credential <- lift (derive_credential e password) ;;
      let (hash, salt) := credential in
      let newUser := VObj
        [ ("username", username);
          ("passwordHash", VStr hash);
          ("salt", VStr salt);
          ("name", or_else name (VStr EmptyString));
          ("agency", or_else agency (VStr EmptyString));
          ("age", or_else age (VStr EmptyString));
          ("gender", or_else gender (VStr EmptyString));
          ("height", or_else height (VStr EmptyString));
          ("weight", or_else weight (VStr EmptyString));
          ("exercise", or_else exercise (VStr EmptyString));
          ("fruitsVeg", or_else fruitsVeg (VStr EmptyString));
          ("water", or_else water (VStr EmptyString));
          ("tobacco", or_else tobacco (VStr EmptyString));
          ("points", VNum (num_of_Z 0)) ] in
      users' <- lift (Array_push users newUser) ;;
      writeJson usersFile users' ;;;
      ret (Reply 200 (message_body "User registered successfully.")).

(** POST /api/login *)
Definition post_login (body : value) : io response :=
  username <- lift (get_prop body "username") ;;
  password <- lift (get_prop body "password") ;;
  users <- readJson usersFile ;;
  hit <- lift (Array_find users (has_username username)) ;;
  let user := found hit in
  if falsy user then
    ret (Reply 400 (error_body "Invalid credentials."))
  else
    salt <- lift (get_prop user "salt") ;;
    passwordHash <- lift (get_prop user "passwordHash") ;;
    verified <- lift (verify_credential password passwordHash salt) ;;
    if negb verified then
      ret (Reply 400 (error_body "Invalid credentials."))
    else
      safe <- lift (safeUser user) ;;
      ret (Reply 200 safe).

(** GET /api/user/:username *)
Definition get_user (name : string) : io response :=
  users <- readJson usersFile ;;
  hit <- lift (Array_find users (has_username (VStr name))) ;;
  let user := found hit in
  if falsy user then
    ret (Reply 404 (error_body "User not found."))
  else
    safe <- lift (safeUser user) ;;
    ret (Reply 200 safe).

(** POST /api/user/:username/points.  [user] is a reference into [users]:
    the assignment to [user.points] is seen by [writeJson (usersFile, users)];
    when [+] throws nothing is assigned and nothing written. *)
Definition post_points (name : string) (body : value) : io response :=
  points <- lift (get_prop body "points") ;;
  if negb (String.eqb (typeof points) "number") then
    ret (Reply 400 (error_body points_must_be_number))
  else
    users <- readJson usersFile ;;
    hit <- lift (Array_find users (has_username (VStr name))) ;;
    let user := found hit in
    if falsy user then
      ret (Reply 404 (error_body "User not found."))
    else
      old <- lift (get_prop user "points") ;;
      sum <- lift (add (or_else old (VNum (num_of_Z 0))) points) ;;
      user' <- lift (set_prop user "points" sum) ;;
      let users' := match hit with
                    | Some (i, _) => with_element users i user'
                    | None => users
                    end in
      writeJson usersFile users' ;;;
      total <- lift (get_prop user' "points") ;;
      ret (Reply 200 (VObj [("points", total)])).

(** ** Progress endpoints *)

(** POST /api/user/:username/progress *)
Definition post_progress (e : env) (name : string) (body : value) : io response :=
  steps <- lift (get_prop body "steps") ;;
  minutes <- lift (get_prop body "minutes") ;;
  if eq_null steps && eq_null minutes then
    ret (Reply 400 (error_body "Please provide steps or minutes."))
  else
    progress <- readJson progressFile ;;
    let entry := VObj
      [ ("username", VStr name);
        ("steps", or_else steps VNull);
        ("minutes", or_else minutes VNull);
        ("timestamp", VStr (now_iso e)) ] in
    progress' <- lift (Array_push progress entry) ;;
    writeJson progressFile progress' ;;;
    ret (Reply 200 (message_body "Progress logged successfully.")).

(** GET /api/user/:username/progress *)
Definition get_progress (name : string) : io response :=
  all <- readJson progressFile ;;
  progress <- lift (Array_filter all (has_username (VStr name))) ;;
  ret (Reply 200 progress).

(** ** Community endpoints *)

(** GET /api/community *)
Definition get_community : io response :=
  posts <- readJson communityFile ;;
  ret (Reply 200 posts).

(** POST /api/community *)
Definition post_community (e : env) (body : value) : io response :=
  username <- lift (get_prop body "username") ;;
  title <- lift (get_prop body "title") ;;
  description <- lift (get_prop body "description") ;;
  image <- lift (get_prop body "image") ;;
  duration <- lift (get_prop body "duration") ;;
  activityType <- lift (get_prop body "activityType") ;;
  if falsy username || falsy description then
    ret (Reply 400 (error_body "Post must include a username and description."))
  else
    posts <- readJson communityFile ;;
    let post := VObj
      [ ("username", username);
        ("title", or_else title (VStr EmptyString));
        ("description", description);
        ("image", or_else image (VStr EmptyString));
        ("duration", or_else duration (VStr EmptyString));
        ("activityType", or_else activityType (VStr EmptyString));
        ("timestamp", VStr (now_iso e)) ] in
    posts' <- lift (Array_push posts post) ;;
    writeJson communityFile posts' ;;;
    ret (Reply 200 (message_body "Post created successfully.")).

(** ** Requests *)

(** Express runs a handler and answers 500 when it throws; the files stay
    as the handler left them. *)
Definition serve (h : io response) (w : world) : response * world :=
  match h w with
  | (Ok r, w') => (r, w')
  | (Throw e, w') => (Uncaught e, w')
  end.

Inductive request : Type :=
| Register (body : value)
| Login (body : value)
| GetUser (name : string)
| AddPoints (name : string) (body : value)
| LogProgress (name : string) (body : value)
| ListProgress (name : string)
| ListPosts
| CreatePost (body : value).

Definition route (e : env) (r : request) : io response :=
  match r with
  | Register body => post_register e body
  | Login body => post_login body
  | GetUser name => get_user name
  | AddPoints name body => post_points name body
  | LogProgress name body => post_progress e name body
  | ListProgress name => get_progress name
  | ListPosts => get_community
  | CreatePost body => post_community e body
  end.

Definition handle (e : env) (r : request) (w : world) : response * world :=
  serve (route e r) w.

End Server.

(* ===================================================================== *)
(** * Vocabulary of the properties *)
(* ===================================================================== *)

(** What [readJson p] returns in [w], and the world it leaves: only a read
    or parse failure prints to the console. *)
Definition loaded (p : path) (w : world) : value :=
  match file_at p w with
  | Stored (Json doc) => doc
  | _ => VArr []
  end.

Definition log_line (msg : string) (w : world) : world :=
  World (users w) (community w) (progress w) (write_ok w) (console w ++ [msg]).

Definition after_read (p : path) (w : world) : world :=
  match file_at p w with
  | Unreadable | Stored (Malformed _) => log_line ("Error reading " ++ path_name p) w
  | _ => w
  end.

(** The world [writeJson p data] leaves. *)
Definition after_write (p : path) (data : value) (w : world) : world :=
  if write_ok w p
  then put_file p (Stored (Json (json_image data))) w
  else log_line ("Error writing " ++ path_name p) w.

Definition status_of (r : response) : nat :=
  match r with
  | Reply st _ => st
  | Uncaught _ => 500
  end.

(** The JSON body of an answer; the 500 page of Express is not JSON. *)
Definition payload (r : response) : value :=
  match r with
  | Reply _ b => b
  | Uncaught _ => VUndefined
  end.

(** A user record as the data model has it: an object whose [username] is
    a string. *)
Definition is_user (u : value) : Prop :=
  exists ps name, u = VObj ps /\ lookup "username" ps = Some (VStr name).

Definition username_of (u : value) : value :=
  match u with
  | VObj ps => prop "username" ps
  | _ => VUndefined
  end.

(** The users file holds user records with pairwise distinct usernames. *)
Definition unique_usernames (w : world) : Prop :=
  exists us, loaded usersFile w = VArr us /\
             Forall is_user us /\
             NoDup (map username_of us).

(** The usernames of the records of the users file are pairwise distinct,
    whatever their type. *)
Definition distinct_usernames (w : world) : Prop :=
  exists us, loaded usersFile w = VArr us /\ NoDup (map username_of us).

(** How many records of the users file carry the username [name]. *)
Definition count_username (name : string) (w : world) : nat :=
  match loaded usersFile w with
  | VArr us =>
      length (filter (fun u => strict_eq (username_of u) (VStr name)) us)
  | _ => 0
  end.

(** The element [users.find] stops at: the first one whose username is
    [name], every element before it having been compared without a throw. *)
Definition first_named (name : value) (us : list value) (i : nat) (u : value)
  : Prop :=
  nth_error us i = Some u /\
  has_username name u = Ok true /\
  forall j u', j < i -> nth_error us j = Some u' ->
               has_username name u' = Ok false.

(** No element is named [name]. *)
Definition none_named (name : value) (us : list value) : Prop :=
  Forall (fun u => has_username name u = Ok false) us.

(** The stored [points] of a record read as a Number: a Number other than
    [NaN] and [-0] (which [JSON.stringify] never writes), or nothing. *)
Inductive holds_points : value -> number -> Prop :=
| points_number (p : number) :
    num_is_nan p = false -> p <> S754_zero true -> holds_points (VNum p) p
| points_undefined : holds_points VUndefined (S754_zero false)
| points_null : holds_points VNull (S754_zero false).

(** The [points] property of the first record of the users file named
    [name]; [undefined] when there is none. *)
Definition stored_points (name : string) (w : world) : value :=
  match loaded usersFile w with
  | VArr us =>
      match find (fun u => strict_eq (username_of u) (VStr name)) us with
      | Some (VObj ps) => prop "points" ps
      | _ => VUndefined
      end
  | _ => VUndefined
  end.

(** The entry the progress handler appends, as the progress file holds it. *)
Definition logged_entry (e : env) (name : string) (fields : list (string * value))
  : value :=
  VObj
    [ ("username", VStr name);
      ("steps", json_image (or_else (prop "steps" fields) VNull));
      ("minutes", json_image (or_else (prop "minutes" fields) VNull));
      ("timestamp", VStr (now_iso e)) ].

(** The callback of [filter] in GET /api/user/:username/progress, on an
    entry that is neither [null] nor [undefined]. *)
Definition entry_of (name : string) (p : value) : bool :=
  strict_eq (username_of p) (VStr name).

(** The record the register handler appends for the body [fields], once the
    hash of the password is known. *)
Definition registered_record (e : env) (fields : list (string * value))
  (hash : string) : value :=
  VObj
    [ ("username", prop "username" fields);
      ("passwordHash", VStr hash);
      ("salt", VStr (random_hex e));
      ("name", or_else (prop "name" fields) (VStr EmptyString));
      ("agency", or_else (prop "agency" fields) (VStr EmptyString));
      ("age", or_else (prop "age" fields) (VStr EmptyString));
      ("gender", or_else (prop "gender" fields) (VStr EmptyString));
      ("height", or_else (prop "height" fields) (VStr EmptyString));
      ("weight", or_else (prop "weight" fields) (VStr EmptyString));
      ("exercise", or_else (prop "exercise" fields) (VStr EmptyString));
      ("fruitsVeg", or_else (prop "fruitsVeg" fields) (VStr EmptyString));
      ("water", or_else (prop "water" fields) (VStr EmptyString));
      ("tobacco", or_else (prop "tobacco" fields) (VStr EmptyString));
      ("points", VNum (num_of_Z 0)) ].

(** The users file already has a record named [name]. *)
Definition registered (name : string) (w : world) : Prop :=
  exists us, loaded usersFile w = VArr us /\ In (VStr name) (map username_of us).

(** A request that registers names a string, or no username at all. *)
Definition username_typed (r : request) : bool :=
  match r with
  | Register (VObj fields) =>
      match prop "username" fields with
      | VStr _ => true
      | x => falsy x
      end
  | _ => true
  end.

(** The optional profile fields of a registration. *)
Definition profile_keys : list string :=
  [ "name"; "agency"; "age"; "gender"; "height"; "weight"; "exercise";
    "fruitsVeg"; "water"; "tobacco" ].

(** The world [writeJson p data] leaves, whatever the data. *)
Definition written (p : path) (data : value) (w : world) : world :=
  snd (writeJson p data w).

(** The one file a request may write; the requests that only read have
    none. *)
Definition target (r : request) : option path :=
  match r with
  | Register _ | AddPoints _ _ => Some usersFile
  | LogProgress _ _ => Some progressFile
  | CreatePost _ => Some communityFile
  | Login _ | GetUser _ | ListProgress _ | ListPosts => None
  end.

(** The post the community handler appends, as the community file holds
    it. *)
Definition stored_post (e : env) (fields : list (string * value)) : value :=
  VObj
    [ ("username", json_image (prop "username" fields));
      ("title", json_image (or_else (prop "title" fields) (VStr EmptyString)));
      ("description", json_image (prop "description" fields));
      ("image", json_image (or_else (prop "image" fields) (VStr EmptyString)));
      ("duration", json_image (or_else (prop "duration" fields) (VStr EmptyString)));
      ("activityType",
       json_image (or_else (prop "activityType" fields) (VStr EmptyString)));
      ("timestamp", VStr (now_iso e)) ].

(** A document that serialisation leaves as it is: every document
    [writeJson] wrote is one. *)
Definition json_stable (v : value) : Prop := json_image v = v.

(** The usernames of the records of the users file, in stored order. *)
Definition user_names (w : world) : list value :=
  match loaded usersFile w with
  | VArr us => map username_of us
  | _ => []
  end.

(** The elements of the array a file holds. *)
Definition stored_list (p : path) (w : world) : list value :=
  match loaded p w with
  | VArr l => l
  | _ => []
  end.

(** The file holds an array that serialisation leaves as it is. *)
Definition stable_list (p : path) (w : world) : Prop :=
  exists l, loaded p w = VArr l /\ json_stable (VArr l).

(** The world after a sequence of requests, each with its own clock reading
    and random bytes. *)
Definition serve_all (Number_toString : number -> string)
  (hmac_sha256_hex : string -> string -> string)
  (reqs : list (env * request)) (w : world) : world :=
  fold_left
    (fun w' er => snd (handle Number_toString hmac_sha256_hex (fst er) (snd er) w'))
    reqs w.

(** ** A sample run *)

Module Sample.

(** Stand-ins for the two runtime functions. *)
Definition Number_toString (n : number) : string := "n".
Definition hmac_sha256_hex (key data : string) : string := key ++ ":" ++ data.

Definition e0 : env := Env "0f1e2d3c4b5a69788796a5b4c3d2e1f0" "2024-05-01T10:00:00.000Z".

Definition empty_dir : world := World Missing Missing Missing (fun _ => true) [].

Definition run (r : request) (w : world) : response * world :=
  handle Number_toString hmac_sha256_hex e0 r w.

Definition credentials (name password : string) : value :=
  VObj [("username", VStr name); ("password", VStr password)].

Definition points_body (n : number) : value := VObj [("points", VNum n)].

(** The data directory once alice has registered. *)
Definition with_alice : world :=
  Eval vm_compute in
    snd (run (Register (credentials "alice" "pw123")) empty_dir).

(** The records of its users file, and the properties of the only one. *)
Definition alice_records : list value :=
  Eval vm_compute in
    match loaded usersFile with_alice with
    | VArr us => us
    | _ => []
    end.

Definition alice_props : list (string * value) :=
  Eval vm_compute in
    match alice_records with
    | VObj ps :: _ => ps
    | _ => []
    end.

Definition alice_fields : list (string * value) :=
  [("username", VStr "alice"); ("password", VStr "pw123")].

Definition alice_wrong_fields : list (string * value) :=
  [("username", VStr "alice"); ("password", VStr "wrong")].

(** A post without description, and progress bodies. *)
Definition post_fields : list (string * value) :=
  [("username", VStr "alice"); ("title", VStr "Morning run")].

Definition zero_steps : list (string * value) :=
  [("steps", VNum (num_of_Z 0))].

Definition nan_points : list (string * value) :=
  [("points", VNum S754_nan)].

Definition five_points : list (string * value) :=
  [("points", VNum (num_of_Z 5))].

(** The data directory after [NaN] points were added to alice. *)
Definition after_nan : world :=
  Eval vm_compute in
    snd (run (AddPoints "alice" (VObj nan_points)) with_alice).

(** More bodies, and two data directories in trouble: one that cannot be
    written, one whose users file is not JSON. *)
Definition bob_fields : list (string * value) :=
  [("username", VStr "bob"); ("password", VStr "s3cret"); ("age", VNum (num_of_Z 41))].

Definition numeric_password : list (string * value) :=
  [("username", VStr "bob"); ("password", VNum (num_of_Z 1234))].

Definition no_password : list (string * value) :=
  [("username", VStr "alice")].

Definition full_post : list (string * value) :=
  [("username", VStr "alice"); ("description", VStr "5 km before breakfast")].

Definition steps_500 : list (string * value) :=
  [("steps", VNum (num_of_Z 500))].

Definition read_only_dir : world :=
  World Missing Missing Missing (fun _ => false) [].

Definition broken_dir : world :=
  World (Stored (Malformed "[{")) Missing Missing (fun _ => true) [].

Definition two_registrations : list (env * request) :=
  [ (e0, Register (VObj alice_fields)); (e0, LogProgress "bob" (VObj steps_500));
    (e0, Register (VObj alice_fields)); (e0, Register (VObj bob_fields)) ].

(** A registration whose username is the array [["a"]], and the data
    directory after it was sent once and twice. *)
Definition array_fields : list (string * value) :=
  [("username", VArr [VStr "a"]); ("password", VStr "pw")].

Definition with_array_user : world :=
  Eval vm_compute in snd (run (Register (VObj array_fields)) empty_dir).

Definition with_two_array_users : world :=
  Eval vm_compute in snd (run (Register (VObj array_fields)) with_array_user).

End Sample.

(* ===================================================================== *)
(** * The record store: [readJson] and [writeJson] *)
(* ===================================================================== *)

Lemma readJson_eq (p : path) (w : world) :
  readJson p w = (Ok (loaded p w), after_read p w).
Proof.
  unfold readJson, try_catch, io_bind, existsSync, readFileSync, lift, ret,
    console_error, loaded, after_read, log_line.
  destruct (file_at p w) as [ | | [ | raw | doc ] ] eqn:Hfile;
    cbn; rewrite ?Hfile; reflexivity.
Qed.

Lemma writeJson_eq (p : path) (data : value) (w : world) :
  data <> VUndefined ->
  writeJson p data w = (Ok tt, after_write p data w).
Proof.
  intros Hdef.
  unfold writeJson, try_catch, writeFileSync, console_error, after_write, log_line.
  destruct data; try congruence; simpl; destruct (write_ok w p); reflexivity.
Qed.

Lemma file_at_log_line (p : path) (msg : string) (w : world) :
  file_at p (log_line msg w) = file_at p w.
Proof. destruct p; reflexivity. Qed.

Lemma file_at_after_read (p q : path) (w : world) :
  file_at p (after_read q w) = file_at p w.
Proof.
  unfold after_read.
  destruct (file_at q w) as [ | | [ | raw | doc ] ];
    auto using file_at_log_line.
Qed.

Lemma write_ok_after_read (q : path) (w : world) :
  write_ok (after_read q w) = write_ok w.
Proof.
  unfold after_read.
  destruct (file_at q w) as [ | | [ | raw | doc ] ]; reflexivity.
Qed.

Lemma loaded_after_read (p q : path) (w : world) :
  loaded p (after_read q w) = loaded p w.
Proof. unfold loaded. now rewrite file_at_after_read. Qed.

Lemma file_at_put_same (p : path) (f : file) (w : world) :
  file_at p (put_file p f w) = f.
Proof. destruct p; reflexivity. Qed.

Lemma file_at_put_other (p q : path) (f : file) (w : world) :
  p <> q -> file_at p (put_file q f w) = file_at p w.
Proof. destruct p, q; congruence || reflexivity. Qed.

Lemma loaded_after_write (p : path) (data : value) (w : world) :
  write_ok w p = true ->
  loaded p (after_write p data w) = json_image data.
Proof.
  intros Hok. unfold loaded, after_write. rewrite Hok.
  now rewrite file_at_put_same.
Qed.

Lemma file_at_after_write_other (p q : path) (data : value) (w : world) :
  p <> q -> file_at p (after_write q data w) = file_at p w.
Proof.
  intros Hne. unfold after_write.
  destruct (write_ok w q);
    [ now apply file_at_put_other | apply file_at_log_line ].
Qed.

Lemma write_ok_after_write (q : path) (data : value) (w : world) :
  write_ok (after_write q data w) = write_ok w.
Proof.
  unfold after_write. destruct (write_ok w q); [ | reflexivity ].
  destruct q; reflexivity.
Qed.

(** After a read that found a JSON document nothing was printed. *)
Lemma after_read_json (p : path) (w : world) (doc : value) :
  file_at p w = Stored (Json doc) -> after_read p w = w.
Proof. intros H. unfold after_read. now rewrite H. Qed.

(** C8. [readJson] never throws, whatever the state of the file, and for
    each of the three files: an absent file reads as the empty array and
    leaves the world alone; a file that cannot be read or parsed prints one
    line on the console and reads as the empty array as well, which is also
    what a file holding [[]] reads as. *)
Theorem readJson_absorbs_failures (p : path) (w : world) :
  readJson p w =
    match file_at p w with
    | Missing => (Ok (VArr []), w)
    | Unreadable =>
        (Ok (VArr []), log_line ("Error reading " ++ path_name p) w)
    | Stored Blank => (Ok (VArr []), w)
    | Stored (Malformed _) =>
        (Ok (VArr []), log_line ("Error reading " ++ path_name p) w)
    | Stored (Json doc) => (Ok doc, w)
    end
  /\ (forall e : exn, fst (readJson p w) <> Throw e)
  /\ (forall q : path, file_at q (snd (readJson p w)) = file_at q w)
  /\ fst (readJson p (put_file p (Stored (Json (VArr []))) w)) = Ok (VArr []).
Proof.
  rewrite !readJson_eq. simpl fst; simpl snd.
  repeat split.
  - unfold loaded, after_read.
    destruct (file_at p w) as [ | | [ | raw | doc ] ]; reflexivity.
  - intros e; discriminate.
  - intros q. apply file_at_after_read.
  - unfold loaded. now rewrite file_at_put_same.
Qed.

(* ===================================================================== *)
(** * Lists of records *)
(* ===================================================================== *)

Lemma strict_eq_string (x : value) (s : string) :
  strict_eq x (VStr s) = true <-> x = VStr s.
Proof.
  destruct x; simpl; try (split; [discriminate | congruence]).
  rewrite String.eqb_eq. split; congruence.
Qed.

Lemma has_username_object (name : value) (ps : list (string * value)) :
  has_username name (VObj ps) = Ok (strict_eq (prop "username" ps) name).
Proof. reflexivity. Qed.

(** Only an object can be named by a string. *)
Lemma has_username_string_inv (name : string) (u : value) :
  has_username (VStr name) u = Ok true ->
  exists ps, u = VObj ps /\ lookup "username" ps = Some (VStr name).
Proof.
  unfold has_username.
  destruct u; simpl; try discriminate.
  intros H. injection H as H. exists props. split; [reflexivity|].
  unfold prop in H. destruct (lookup "username" props) as [x|]; simpl in H.
  - apply strict_eq_string in H. now subst.
  - discriminate.
Qed.

Lemma has_username_user (name : string) (u : value) :
  is_user u ->
  has_username (VStr name) u = Ok (strict_eq (username_of u) (VStr name)).
Proof. intros (ps & n & -> & _). reflexivity. Qed.

Lemma find_from_none (pred : value -> result bool) (l : list value) :
  Forall (fun u => pred u = Ok false) l ->
  forall i, find_from i pred l = Ok None.
Proof.
  induction 1 as [ | u l Hu _ IH ]; intros i; simpl.
  - reflexivity.
  - rewrite Hu. simpl. apply IH.
Qed.

Lemma find_from_first (pred : value -> result bool) (l : list value) :
  forall k i x,
    nth_error l k = Some x ->
    pred x = Ok true ->
    (forall j u, j < k -> nth_error l j = Some u -> pred u = Ok false) ->
    find_from i pred l = Ok (Some (i + k, x)).
Proof.
  induction l as [ | y l IH ]; intros [ | k ] i x Hnth Hx Hbefore;
    simpl in Hnth; try discriminate.
  - injection Hnth as ->. simpl. rewrite Hx. simpl.
    now rewrite Nat.add_0_r.
  - simpl. rewrite (Hbefore 0 y) by (simpl; auto; lia). simpl.
    rewrite (IH k (S i) x Hnth Hx).
    + now rewrite Nat.add_succ_r.
    + intros j u Hj Hu. apply (Hbefore (S j) u); [lia | exact Hu].
Qed.

(** What an answer of [find] tells about the array. *)
Lemma find_from_inv (pred : value -> result bool) (l : list value) :
  forall i r,
    find_from i pred l = Ok r ->
    match r with
    | None => Forall (fun u => pred u = Ok false) l
    | Some (j, x) =>
        exists k, j = i + k /\ nth_error l k = Some x /\ pred x = Ok true /\
                  forall m u, m < k -> nth_error l m = Some u ->
                              pred u = Ok false
    end.
Proof.
  induction l as [ | y l IH ]; intros i r; simpl.
  - intros H. injection H as <-. constructor.
  - destruct (pred y) as [ [ | ] | err ] eqn:Hy; simpl; try discriminate.
    + intros H. injection H as <-. exists 0.
      repeat split; auto; try lia.
    + intros H. specialize (IH (S i) r H).
      destruct r as [ [j x] | ].
      * destruct IH as (k & -> & Hk & Hx & Hbefore).
        exists (S k). repeat split; auto; try lia.
        intros [ | m ] u Hm Hu; simpl in Hu.
        -- now injection Hu as <-.
        -- apply (Hbefore m u); [lia | exact Hu].
      * constructor; assumption.
Qed.

Lemma find_named (name : value) (us : list value) (i : nat) (u : value) :
  first_named name us i u ->
  Array_find (VArr us) (has_username name) = Ok (Some (i, u)).
Proof.
  intros (Hnth & Hu & Hbefore). simpl.
  now rewrite (find_from_first _ us i 0 u Hnth Hu Hbefore).
Qed.

Lemma find_none_named (name : value) (us : list value) :
  none_named name us ->
  Array_find (VArr us) (has_username name) = Ok None.
Proof. intros H. simpl. now apply find_from_none. Qed.

Lemma find_named_inv (name : value) (us : list value) (r : option (nat * value)) :
  Array_find (VArr us) (has_username name) = Ok r ->
  match r with
  | None => none_named name us
  | Some (i, u) => first_named name us i u
  end.
Proof.
  simpl. intros H. apply find_from_inv in H.
  destruct r as [ [i u] | ]; [ | exact H ].
  destruct H as (k & -> & Hk & Hu & Hbefore). simpl.
  repeat split; assumption.
Qed.

(** ** Objects and their JSON form *)

Lemma json_image_array (l : list value) :
  json_image (VArr l) = VArr (map json_slot l).
Proof. reflexivity. Qed.

Lemma json_image_object (ps : list (string * value)) :
  json_image (VObj ps) = VObj (json_props ps).
Proof.
  reflexivity.
Qed.

Lemma json_slot_object (ps : list (string * value)) :
  json_slot (VObj ps) = VObj (json_props ps).
Proof. reflexivity. Qed.

Lemma json_image_defined (v : value) :
  v <> VUndefined -> json_image v <> VUndefined.
Proof.
  destruct v; simpl; try congruence.
  destruct (num_is_finite n); congruence.
Qed.

(** A property that holds a value is still there, in JSON form, once the
    object is serialised. *)
Lemma lookup_json_props (k : string) (ps : list (string * value)) (x : value) :
  lookup k ps = Some x -> x <> VUndefined ->
  lookup k (json_props ps) = Some (json_image x).
Proof.
  intros Hk Hx.
  induction ps as [ | [k' y] ps IH ]; simpl in *; [ discriminate | ].
  destruct (String.eqb k k') eqn:Heq.
  - injection Hk as ->.
    destruct x; try congruence; simpl; now rewrite Heq.
  - destruct y; simpl; rewrite ?Heq; auto.
Qed.

Lemma has_key_json_props (k : string) (ps : list (string * value)) :
  has_key k (VObj ps) = false -> has_key k (VObj (json_props ps)) = false.
Proof.
  simpl. induction ps as [ | [k' y] ps IH ]; simpl; [ reflexivity | ].
  intros H. apply orb_false_iff in H as [Hk Hrest].
  destruct y; simpl; rewrite ?Hk; simpl; auto.
Qed.

Lemma has_key_json_image (k : string) (v : value) :
  has_key k v = false -> has_key k (json_image v) = false.
Proof.
  destruct v; try reflexivity.
  - simpl. destruct (num_is_finite n); reflexivity.
  - rewrite json_image_object. apply has_key_json_props.
Qed.

Lemma lookup_assign_same (k : string) (x : value) (ps : list (string * value)) :
  lookup k (assign k x ps) = Some x.
Proof.
  induction ps as [ | [k' y] ps IH ]; simpl.
  - now rewrite String.eqb_refl.
  - destruct (String.eqb k k') eqn:Heq; simpl; rewrite Heq; auto.
Qed.

Lemma prop_assign_same (k : string) (x : value) (ps : list (string * value)) :
  prop k (assign k x ps) = x.
Proof. unfold prop. now rewrite lookup_assign_same. Qed.

Lemma lookup_assign_other (k k' : string) (x : value) (ps : list (string * value)) :
  k <> k' -> lookup k (assign k' x ps) = lookup k ps.
Proof.
  intros Hne. apply String.eqb_neq in Hne.
  induction ps as [ | [k'' y] ps IH ]; simpl.
  - now rewrite Hne.
  - destruct (String.eqb k' k'') eqn:Heq; simpl.
    + apply String.eqb_eq in Heq. subst k''. now rewrite Hne.
    + now rewrite IH.
Qed.

(** The rest of a destructuring keeps every other property as it is. *)
Lemma lookup_omit (k : string) (ks : list string) (ps : list (string * value)) :
  lookup k (omit ks ps) =
    if existsb (String.eqb k) ks then None else lookup k ps.
Proof.
  induction ps as [ | [k' y] ps IH ]; simpl.
  - now destruct (existsb _ ks).
  - destruct (String.eqb k k') eqn:Heq.
    + apply String.eqb_eq in Heq. subst k'.
      destruct (existsb (String.eqb k) ks) eqn:Hin; simpl.
      * exact IH.
      * now rewrite String.eqb_refl.
    + destruct (existsb (String.eqb k') ks); simpl; rewrite ?Heq; exact IH.
Qed.

Lemma has_key_omit (k : string) (ks : list string) (ps : list (string * value)) :
  existsb (String.eqb k) ks = true ->
  has_key k (VObj (omit ks ps)) = false.
Proof.
  intros Hin. simpl.
  induction ps as [ | [k' y] ps IH ]; simpl; [ reflexivity | ].
  destruct (existsb (String.eqb k') ks) eqn:Hk'; simpl; [ exact IH | ].
  rewrite IH, orb_false_r.
  destruct (String.eqb k k') eqn:Heq; [ | reflexivity ].
  apply String.eqb_eq in Heq. congruence.
Qed.

(** ** User records *)

(** An element named by a truthy value is an object, hence truthy. *)
Lemma named_is_truthy (name u : value) :
  has_username name u = Ok true -> truthy name = true -> truthy u = true.
Proof.
  destruct u; simpl; try reflexivity; try discriminate;
    intros H Hname; injection H as H;
    destruct name; simpl in *; discriminate.
Qed.

Lemma is_user_json_slot (u : value) :
  is_user u -> is_user (json_slot u) /\ username_of (json_slot u) = username_of u.
Proof.
  intros (ps & name & -> & Hname).
  assert (Hkept : lookup "username" (json_props ps) = Some (VStr name)).
  { apply (lookup_json_props _ _ _ Hname). discriminate. }
  split.
  - exists (json_props ps), name. split; [ reflexivity | exact Hkept ].
  - change (json_slot (VObj ps)) with (VObj (json_props ps)).
    unfold username_of, prop. now rewrite Hkept, Hname.
Qed.

Lemma users_json_slot (us : list value) :
  Forall is_user us ->
  Forall is_user (map json_slot us) /\
  map username_of (map json_slot us) = map username_of us.
Proof.
  induction 1 as [ | u us Hu _ [IHusers IHnames] ]; simpl.
  - split; [ constructor | reflexivity ].
  - destruct (is_user_json_slot u Hu) as [Hu' Hname].
    split; [ constructor; assumption | now rewrite Hname, IHnames ].
Qed.

Lemma has_username_json_slot (name : string) (u : value) :
  is_user u ->
  has_username (VStr name) (json_slot u) = has_username (VStr name) u.
Proof.
  intros Hu. destruct (is_user_json_slot u Hu) as [Hu' Hname].
  rewrite !has_username_user by assumption. now rewrite Hname.
Qed.

(** Among user records the search cannot throw. *)
Lemma none_named_users (name : string) (us : list value) :
  Forall is_user us ->
  ~ In (VStr name) (map username_of us) ->
  none_named (VStr name) us.
Proof.
  unfold none_named.
  induction 1 as [ | u us Hu _ IH ]; simpl; intros Hnot; constructor.
  - rewrite has_username_user by assumption. f_equal.
    destruct (strict_eq (username_of u) (VStr name)) eqn:Heq; [ | reflexivity ].
    apply strict_eq_string in Heq. tauto.
  - apply IH. tauto.
Qed.

Lemma none_named_not_in (name : string) (us : list value) :
  Forall is_user us ->
  none_named (VStr name) us ->
  ~ In (VStr name) (map username_of us).
Proof.
  unfold none_named.
  induction 1 as [ | u us Hu _ IH ]; simpl; intros Hnone; [ tauto | ].
  inversion Hnone as [ | ? ? Hhead Htail ]; subst.
  rewrite has_username_user in Hhead by assumption.
  intros [Heq | Hin]; [ | now apply IH ].
  apply strict_eq_string in Heq. congruence.
Qed.

Lemma first_named_users (name : string) (us : list value) :
  Forall is_user us ->
  In (VStr name) (map username_of us) ->
  exists i ps, first_named (VStr name) us i (VObj ps).
Proof.
  intros Husers Hin.
  assert (Htotal : exists r, find_from 0 (has_username (VStr name)) us = Ok r).
  { clear Hin. generalize 0.
    induction Husers as [ | u us Hu _ IH ]; intros i; simpl.
    - eauto.
    - rewrite has_username_user by assumption. simpl.
      destruct (strict_eq (username_of u) (VStr name)); eauto. }
  destruct Htotal as (r & Hfind).
  apply (find_named_inv (VStr name) us) in Hfind.
  destruct r as [ [i u] | ].
  - destruct (has_username_string_inv name u) as (ps & -> & _);
      [ apply Hfind | ]. eauto.
  - exfalso. now apply (none_named_not_in name us Husers).
Qed.

(** Appending a record to user records: the search for its name now stops
    at it. *)
Lemma first_named_appended (name : string) (us : list value) (u : value) :
  none_named (VStr name) us ->
  has_username (VStr name) u = Ok true ->
  first_named (VStr name) (us ++ [u]) (length us) u.
Proof.
  intros Hnone Hu. repeat split.
  - rewrite nth_error_app2 by lia. now rewrite Nat.sub_diag.
  - exact Hu.
  - intros j u' Hj Hnth. rewrite nth_error_app1 in Hnth by exact Hj.
    unfold none_named in Hnone. rewrite Forall_forall in Hnone.
    apply Hnone. eapply nth_error_In; eassumption.
Qed.

Lemma none_named_json_slot (name : string) (us : list value) :
  Forall is_user us ->
  none_named (VStr name) us ->
  none_named (VStr name) (map json_slot us).
Proof.
  unfold none_named.
  induction 1 as [ | u us Hu _ IH ]; simpl; intros Hnone; constructor;
    inversion Hnone; subst.
  - now rewrite has_username_json_slot.
  - now apply IH.
Qed.

(** ** An element mutated in place *)

Lemma replace_at_length (i : nat) (x : value) (l : list value) :
  length (replace_at i x l) = length l.
Proof.
  revert i. induction l as [ | y l IH ]; intros [ | i ]; simpl; auto.
Qed.

Lemma replace_at_same (i : nat) (x y : value) (l : list value) :
  nth_error l i = Some y -> nth_error (replace_at i x l) i = Some x.
Proof.
  revert i. induction l as [ | z l IH ]; intros [ | i ]; simpl;
    try discriminate; auto.
Qed.

Lemma replace_at_other (i j : nat) (x : value) (l : list value) :
  j <> i -> nth_error (replace_at i x l) j = nth_error l j.
Proof.
  revert i j. induction l as [ | z l IH ]; intros [ | i ] [ | j ] Hne; simpl;
    try reflexivity; try congruence.
  apply IH. congruence.
Qed.

Lemma replace_at_map (f : value -> value) (i : nat) (x : value) (l : list value) :
  map f (replace_at i x l) = replace_at i (f x) (map f l).
Proof.
  revert i. induction l as [ | z l IH ]; intros [ | i ]; simpl;
    try reflexivity. now rewrite IH.
Qed.

(** Replacing a user record by one of the same name changes no name. *)
Lemma replace_at_users (i : nat) (u u' : value) (us : list value) :
  Forall is_user us ->
  nth_error us i = Some u ->
  is_user u' ->
  username_of u' = username_of u ->
  Forall is_user (replace_at i u' us) /\
  map username_of (replace_at i u' us) = map username_of us.
Proof.
  intros Husers. revert i.
  induction Husers as [ | z us Hz Husers IH ]; intros [ | i ] Hnth Hu' Hname;
    simpl in *; try discriminate.
  - injection Hnth as ->. split; [ now constructor | now rewrite Hname ].
  - destruct (IH i Hnth Hu' Hname) as [IHusers IHnames].
    split; [ now constructor | now rewrite IHnames ].
Qed.

(** Among user records, the first one named [name] is still the first one
    so named after the array went through JSON and back. *)
Lemma first_named_json_slot (name : string) (us : list value) (i : nat) (u : value) :
  Forall is_user us ->
  first_named (VStr name) us i u ->
  first_named (VStr name) (map json_slot us) i (json_slot u).
Proof.
  intros Husers (Hnth & Hu & Hbefore).
  rewrite Forall_forall in Husers.
  repeat split.
  - rewrite nth_error_map, Hnth. reflexivity.
  - rewrite has_username_json_slot; [ exact Hu | ].
    apply Husers. eapply nth_error_In; eassumption.
  - intros j u' Hj Hnth'. rewrite nth_error_map in Hnth'.
    destruct (nth_error us j) as [ v | ] eqn:Hv; simpl in Hnth';
      [ | discriminate ].
    injection Hnth' as <-.
    rewrite has_username_json_slot.
    + now apply (Hbefore j v).
    + apply Husers. eapply nth_error_In; eassumption.
Qed.

(** Replacing the element the search stops at by another of that name. *)
Lemma first_named_replaced (name : value) (us : list value) (i : nat) (u u' : value) :
  first_named name us i u ->
  has_username name u' = Ok true ->
  first_named name (replace_at i u' us) i u'.
Proof.
  intros (Hnth & Hu & Hbefore) Hu'. repeat split.
  - eapply replace_at_same; eassumption.
  - exact Hu'.
  - intros j v Hj Hv. rewrite replace_at_other in Hv by lia.
    now apply (Hbefore j v).
Qed.

(** ** Numbers *)

Lemma num_add_nan_r (x : number) : num_add x S754_nan = S754_nan.
Proof. destruct x; reflexivity. Qed.

Lemma num_add_zero_l (d : number) :
  d <> S754_zero true -> num_add (S754_zero false) d = d.
Proof. destruct d as [ [ | ] | | | ]; simpl; congruence. Qed.

Lemma add_numbers (Number_toString : number -> string) (x y : number) :
  add Number_toString (VNum x) (VNum y) = Ok (VNum (num_add x y)).
Proof. reflexivity. Qed.

Lemma or_else_points (old : value) (p : number) :
  holds_points old p -> or_else old (VNum (num_of_Z 0)) = VNum p.
Proof.
  intros [ q Hnan Hneg | | ]; try reflexivity.
  unfold or_else. simpl.
  destruct q as [ [ | ] | | | ]; simpl in *; congruence.
Qed.

Lemma lookup_json_props_assign_other (k k' : string) (x : value)
  (ps : list (string * value)) :
  k <> k' ->
  lookup k (json_props (assign k' x ps)) = lookup k (json_props ps).
Proof.
  intros Hne. pose proof Hne as Hneb. apply String.eqb_neq in Hneb.
  induction ps as [ | [k'' y] ps IH ]; simpl.
  - destruct x; simpl; now rewrite ?Hneb.
  - destruct (String.eqb k' k'') eqn:Heq.
    + apply String.eqb_eq in Heq. subst k''.
      destruct x, y; simpl; rewrite ?Hneb; reflexivity.
    + destruct y; simpl; rewrite ?IH; reflexivity.
Qed.

Lemma lookup_json_props_assign_same (k : string) (x : value)
  (ps : list (string * value)) :
  x <> VUndefined ->
  lookup k (json_props (assign k x ps)) = Some (json_image x).
Proof.
  intros Hx. apply lookup_json_props; [ apply lookup_assign_same | exact Hx ].
Qed.

Lemma has_username_username_of (name u : value) (b : bool) :
  has_username name u = Ok b -> strict_eq (username_of u) name = b.
Proof.
  destruct u; simpl; try discriminate; intros H; now injection H.
Qed.

Lemma find_first_named (name : value) (us : list value) (i : nat) (u : value) :
  first_named name us i u ->
  find (fun v => strict_eq (username_of v) name) us = Some u.
Proof.
  revert i. induction us as [ | v us IH ]; intros [ | i ] (Hnth & Hu & Hbefore);
    simpl in Hnth; try discriminate.
  - injection Hnth as ->. simpl.
    now rewrite (has_username_username_of _ _ _ Hu).
  - simpl. rewrite (has_username_username_of name v false).
    + apply (IH i). repeat split; auto.
      intros j u' Hj Hu'. apply (Hbefore (S j) u'); [ lia | exact Hu' ].
    + apply (Hbefore 0 v); [ lia | reflexivity ].
Qed.

(** ** Filtering entries *)

Lemma filter_with_username (name : string) (l : list value) :
  Forall (fun p => eq_null p = false) l ->
  filter_with (has_username (VStr name)) l = Ok (filter (entry_of name) l).
Proof.
  induction 1 as [ | p l Hp _ IH ]; simpl; [ reflexivity | ].
  rewrite IH. unfold entry_of.
  destruct p; simpl in *; try discriminate; try reflexivity.
Qed.

Lemma or_else_null_defined (a : value) : or_else a VNull <> VUndefined.
Proof. unfold or_else. destruct a; simpl; try discriminate.
  - destruct b; discriminate.
  - destruct (negb _); discriminate.
  - destruct (negb _); discriminate.
Qed.

(** ** The uniqueness invariant *)

Lemma loaded_same_file (p : path) (w w' : world) :
  file_at p w' = file_at p w -> loaded p w' = loaded p w.
Proof. intros H. unfold loaded. now rewrite H. Qed.

Lemma unique_usernames_same_file (w w' : world) :
  file_at usersFile w' = file_at usersFile w ->
  unique_usernames w -> unique_usernames w'.
Proof.
  intros Hfile (us & Hload & Husers & Hnodup).
  exists us. rewrite (loaded_same_file _ _ _ Hfile). auto.
Qed.

Lemma unique_usernames_written (data : value) (us : list value) (w : world) :
  unique_usernames w ->
  json_image data = VArr us ->
  Forall is_user us ->
  NoDup (map username_of us) ->
  unique_usernames (after_write usersFile data (after_read usersFile w)).
Proof.
  intros Hinv Hdata Husers Hnodup.
  unfold after_write.
  destruct (write_ok (after_read usersFile w) usersFile) eqn:Hok.
  - exists us. unfold loaded. rewrite file_at_put_same. auto.
  - apply unique_usernames_same_file with (w := w); [ | exact Hinv ].
    rewrite file_at_log_line. apply file_at_after_read.
Qed.

Lemma find_users_total (name : string) (us : list value) :
  Forall is_user us ->
  none_named (VStr name) us \/
  exists i ps, first_named (VStr name) us i (VObj ps).
Proof.
  intros Husers.
  assert (Htotal : exists r, find_from 0 (has_username (VStr name)) us = Ok r).
  { generalize 0.
    induction Husers as [ | u us Hu _ IH ]; intros i; simpl.
    - eauto.
    - rewrite has_username_user by assumption. simpl.
      destruct (strict_eq (username_of u) (VStr name)); eauto. }
  destruct Htotal as (r & Hfind).
  apply (find_named_inv (VStr name) us) in Hfind.
  destruct r as [ [i u] | ]; [ right | now left ].
  destruct (has_username_string_inv name u) as (ps & -> & _);
    [ apply Hfind | ]. eauto.
Qed.

Lemma filter_not_named (name : string) (us : list value) :
  ~ In (VStr name) (map username_of us) ->
  filter (fun u => strict_eq (username_of u) (VStr name)) us = [].
Proof.
  induction us as [ | u us IH ]; simpl; intros Hnot; [ reflexivity | ].
  destruct (strict_eq (username_of u) (VStr name)) eqn:Heq.
  - apply strict_eq_string in Heq. tauto.
  - apply IH. tauto.
Qed.

Lemma count_unique (name : string) (us : list value) :
  NoDup (map username_of us) ->
  In (VStr name) (map username_of us) ->
  length (filter (fun u => strict_eq (username_of u) (VStr name)) us) = 1.
Proof.
  induction us as [ | u us IH ]; simpl; intros Hnodup Hin; [ tauto | ].
  inversion Hnodup as [ | ? ? Hfresh Hrest ]; subst.
  destruct (strict_eq (username_of u) (VStr name)) eqn:Heq.
  - apply strict_eq_string in Heq. rewrite Heq in Hfresh.
    simpl. now rewrite (filter_not_named name us Hfresh).
  - destruct Hin as [Hin | Hin]; [ | now apply IH ].
    apply strict_eq_string in Hin. congruence.
Qed.

(** A [NaN] or an infinity, added to any Number, gives no finite Number. *)
Lemma num_add_not_finite (p d : number) :
  num_is_finite d = false -> num_is_finite (num_add p d) = false.
Proof.
  destruct d as [ sd | sd | | sd md ed ]; try discriminate; intros _;
    destruct p as [ sp | sp | | sp mp ep ]; try reflexivity;
    destruct sp, sd; reflexivity.
Qed.

(** The record a registration appends: its first three properties. *)
Lemma registered_record_props (e : env) (fields : list (string * value))
  (hash : string) :
  exists rec,
    registered_record e fields hash = VObj rec /\
    lookup "username" rec = Some (prop "username" fields) /\
    lookup "passwordHash" rec = Some (VStr hash) /\
    lookup "salt" rec = Some (VStr (random_hex e)).
Proof. eexists. split; [ reflexivity | repeat split ]. Qed.

(* ===================================================================== *)
(** * JSON documents *)
(* ===================================================================== *)

(** Induction over values, through the elements of arrays and the
    properties of objects. *)
Lemma value_nested_ind (P : value -> Prop) :
  P VUndefined -> P VNull ->
  (forall b, P (VBool b)) ->
  (forall n, P (VNum n)) ->
  (forall s, P (VStr s)) ->
  (forall l, Forall P l -> P (VArr l)) ->
  (forall ps, Forall (fun kv => P (snd kv)) ps -> P (VObj ps)) ->
  forall v, P v.
Proof.
  intros Hundef Hnull Hbool Hnum Hstr Harr Hobj.
  fix IH 1. intros [ | | b | n | s | l | ps ].
  - exact Hundef.
  - exact Hnull.
  - apply Hbool.
  - apply Hnum.
  - apply Hstr.
  - apply Harr. induction l as [ | x l IHl ]; constructor.
    + apply IH.
    + exact IHl.
  - apply Hobj. induction ps as [ | [k x] ps IHps ]; constructor.
    + apply IH.
    + exact IHps.
Qed.

Lemma json_slot_defined (x : value) : json_slot x <> VUndefined.
Proof.
  destruct x; simpl; try discriminate.
  destruct (num_is_finite n); discriminate.
Qed.

Lemma json_slot_of_image (x : value) :
  x <> VUndefined -> json_slot x = json_image x.
Proof. destruct x; congruence || reflexivity. Qed.

Lemma json_props_cons (k : string) (x : value) (ps : list (string * value)) :
  (x = VUndefined /\ json_props ((k, x) :: ps) = json_props ps) \/
  (x <> VUndefined /\
   json_props ((k, x) :: ps) = (k, json_image x) :: json_props ps).
Proof. destruct x; (left; split; reflexivity) || (right; split; [ discriminate | reflexivity ]). Qed.

(** Serialising twice is serialising once: what [writeJson] wrote is read
    back and written again without a change. *)
Lemma json_image_idempotent (v : value) : json_image (json_image v) = json_image v.
Proof.
  induction v as [ | | b | n | s | l IH | ps IH ] using value_nested_ind;
    try reflexivity.
  - simpl. destruct n as [ sg | sg | | sg m ex ]; reflexivity.
  - rewrite !json_image_array. f_equal. rewrite map_map.
    induction IH as [ | x l Hx _ IHl ]; simpl; [ reflexivity | ].
    rewrite IHl. f_equal.
    rewrite (json_slot_of_image (json_slot x)) by apply json_slot_defined.
    destruct x; try reflexivity; exact Hx.
  - rewrite !json_image_object. f_equal.
    induction IH as [ | [k x] ps Hx _ IHps ]; [ reflexivity | ].
    cbn [snd] in Hx.
    destruct (json_props_cons k x ps) as [ [_ Heq] | [Hdef Heq] ];
      rewrite Heq; [ exact IHps | ].
    destruct (json_props_cons k (json_image x) (json_props ps))
      as [ [Himg _] | [_ Heq'] ].
    + now apply json_image_defined in Hdef.
    + now rewrite Heq', Hx, IHps.
Qed.

(* ===================================================================== *)
(** * More on the record store *)
(* ===================================================================== *)

Lemma writeJson_run (p : path) (data : value) (w : world) :
  writeJson p data w =
    (Ok tt,
     match JSON_stringify data with
     | Some t =>
         if write_ok w p then put_file p (Stored t) w
         else log_line ("Error writing " ++ path_name p) w
     | None => log_line ("Error writing " ++ path_name p) w
     end).
Proof.
  unfold writeJson, try_catch, writeFileSync, console_error, log_line.
  destruct (JSON_stringify data) as [ t | ]; [ | reflexivity ].
  destruct (write_ok w p); reflexivity.
Qed.

Lemma writeJson_other (p q : path) (data : value) (w : world) :
  q <> p -> file_at q (snd (writeJson p data w)) = file_at q w.
Proof.
  intros Hq. rewrite writeJson_run. cbn [snd].
  destruct (JSON_stringify data) as [ t | ];
    [ destruct (write_ok w p) | ];
    auto using file_at_put_other, file_at_log_line.
Qed.

Lemma writeJson_same (p : path) (data : value) (w : world) :
  file_at p (snd (writeJson p data w)) = file_at p w \/
  file_at p (snd (writeJson p data w)) = Stored (Json (json_image data)).
Proof.
  rewrite writeJson_run. cbn [snd]. unfold JSON_stringify.
  destruct data; try (left; apply file_at_log_line);
    (destruct (write_ok w p);
     [ right; apply file_at_put_same | left; apply file_at_log_line ]).
Qed.

(** X1. [writeJson] never throws: a value with no JSON text ([undefined]) or a
    failed write prints one line on the console and leaves every file as it
    was; a write that succeeds replaces that one file by the JSON form of
    the data, and no write touches another file. *)
Theorem writeJson_absorbs_failures (p : path) (data : value) (w : world) :
  writeJson p data w =
    (Ok tt,
     match JSON_stringify data with
     | Some t =>
         if write_ok w p then put_file p (Stored t) w
         else log_line ("Error writing " ++ path_name p) w
     | None => log_line ("Error writing " ++ path_name p) w
     end)
  /\ (forall q, q <> p ->
        file_at q (snd (writeJson p data w)) = file_at q w)
  /\ (file_at p (snd (writeJson p data w)) = file_at p w \/
      file_at p (snd (writeJson p data w)) = Stored (Json (json_image data))).
Proof.
  split; [ apply writeJson_run | split ].
  - intros q. apply writeJson_other.
  - apply writeJson_same.
Qed.

(** X2. What was written is what is read: after a write that succeeded,
    [readJson] returns the JSON form of the data, prints nothing, and
    writing back what was read changes nothing. *)
Theorem write_then_read (p : path) (data : value) (w : world) :
  data <> VUndefined ->
  write_ok w p = true ->
  let w' := snd (writeJson p data w) in
  readJson p w' = (Ok (json_image data), w')
  /\ json_stable (json_image data)
  /\ snd (writeJson p (json_image data) w') = w'.
Proof.
  intros Hdef Hok w'.
  assert (Hw' : w' = put_file p (Stored (Json (json_image data))) w).
  { unfold w'. rewrite writeJson_eq by exact Hdef. cbn [snd].
    unfold after_write. now rewrite Hok. }
  assert (Hfile : file_at p w' = Stored (Json (json_image data)))
    by (rewrite Hw'; apply file_at_put_same).
  split; [ | split ].
  - rewrite readJson_eq. unfold loaded.
    rewrite (after_read_json p w' _ Hfile). now rewrite Hfile.
  - apply json_image_idempotent.
  - rewrite writeJson_eq by (now apply json_image_defined).
    cbn [snd]. unfold after_write.
    rewrite json_image_idempotent.
    rewrite Hw'. destruct p, w; simpl in *; rewrite Hok; reflexivity.
Qed.

Lemma writeJson_written (p : path) (data : value) (w : world) :
  writeJson p data w = (Ok tt, written p data w).
Proof. unfold written. now rewrite writeJson_run. Qed.

Lemma file_at_written_other (p q : path) (data : value) (w : world) :
  q <> p -> file_at q (written p data w) = file_at q w.
Proof. apply writeJson_other. Qed.

Lemma file_at_written_cases (p q : path) (data : value) (w : world) :
  file_at q (written p data w) = file_at q w \/
  exists doc, file_at q (written p data w) = Stored (Json doc) /\ json_stable doc.
Proof.
  destruct p, q;
    try (left; apply file_at_written_other; discriminate);
    match goal with
    | |- context [written ?p0 _ _] =>
        destruct (writeJson_same p0 data w) as [ H | H ];
        [ left; exact H
        | right; exists (json_image data);
          split; [ exact H | apply json_image_idempotent ] ]
    end.
Qed.

Lemma json_props_cons_defined (k : string) (x : value) (ps : list (string * value)) :
  x <> VUndefined ->
  json_props ((k, x) :: ps) = (k, json_image x) :: json_props ps.
Proof. destruct x; congruence || reflexivity. Qed.

(** In a stable array every element is stable. *)
Lemma stable_array (us : list value) :
  json_stable (VArr us) -> map json_slot us = us.
Proof. unfold json_stable. rewrite json_image_array. congruence. Qed.

Lemma stable_element (us : list value) (i : nat) (ps : list (string * value)) :
  json_stable (VArr us) -> nth_error us i = Some (VObj ps) -> json_props ps = ps.
Proof.
  intros Hstable Hnth. apply stable_array in Hstable.
  assert (H : nth_error (map json_slot us) i = Some (json_slot (VObj ps)))
    by (rewrite nth_error_map, Hnth; reflexivity).
  rewrite Hstable, Hnth in H. rewrite json_slot_object in H. congruence.
Qed.

(** ** Truthiness *)

Lemma truthy_defined (a : value) : truthy a = true -> a <> VUndefined.
Proof. destruct a; simpl; congruence. Qed.

Lemma or_else_defined (a b : value) : b <> VUndefined -> or_else a b <> VUndefined.
Proof.
  intros Hb. unfold or_else.
  destruct (truthy a) eqn:Ha; [ now apply truthy_defined | exact Hb ].
Qed.

Lemma falsy_string (s : string) : s <> EmptyString -> falsy (VStr s) = false.
Proof.
  intros Hs. unfold falsy. simpl. apply String.eqb_neq in Hs. now rewrite Hs.
Qed.

(** Every property of the record a registration appends. *)
Lemma registered_record_all_props (e : env) (fields : list (string * value))
  (hash : string) :
  exists rec,
    registered_record e fields hash = VObj rec /\
    lookup "username" rec = Some (prop "username" fields) /\
    lookup "passwordHash" rec = Some (VStr hash) /\
    lookup "salt" rec = Some (VStr (random_hex e)) /\
    lookup "points" rec = Some (VNum (num_of_Z 0)) /\
    has_key "password" (VObj rec) = false /\
    forall k, In k profile_keys ->
      lookup k rec = Some (or_else (prop k fields) (VStr EmptyString)).
Proof.
  eexists. split; [ reflexivity | ].
  repeat (split; [ reflexivity | ]).
  intros k Hk. unfold profile_keys in Hk. simpl in Hk.
  repeat (destruct Hk as [ <- | Hk ]; [ reflexivity | ]).
  contradiction.
Qed.


Lemma add_defined (Number_toString : number -> string) (a b total : value) :
  add Number_toString a b = Ok total -> total <> VUndefined.
Proof.
  unfold add.
  destruct (to_primitive Number_toString a) as [ pa | ]; [ | discriminate ].
  destruct (to_primitive Number_toString b) as [ pb | ]; [ | discriminate ].
  cbn [bind].
  destruct pa, pb; cbn [bind];
    try (intros H; injection H as <-; discriminate);
    match goal with
    | |- context [to_string ?f ?x] => destruct (to_string f x)
    end; cbn [bind]; intros H; try discriminate; injection H as <-; discriminate.
Qed.

Lemma prop_omit_other (k : string) (ks : list string) (ps : list (string * value)) :
  existsb (String.eqb k) ks = false -> prop k (omit ks ps) = prop k ps.
Proof. intros Hk. unfold prop. now rewrite lookup_omit, Hk. Qed.


Lemma user_names_same_file (w w' : world) :
  file_at usersFile w' = file_at usersFile w -> user_names w' = user_names w.
Proof.
  intros H. unfold user_names. now rewrite (loaded_same_file _ _ _ H).
Qed.

Lemma stored_list_same_file (p : path) (w w' : world) :
  file_at p w' = file_at p w -> stored_list p w' = stored_list p w.
Proof.
  intros H. unfold stored_list. now rewrite (loaded_same_file _ _ _ H).
Qed.

Lemma stable_list_same_file (p : path) (w w' : world) :
  file_at p w' = file_at p w -> stable_list p w -> stable_list p w'.
Proof.
  intros H (l & Hload & Hstable). exists l.
  now rewrite (loaded_same_file _ _ _ H).
Qed.

(** Appending to a stable array and writing it: the array grows by the
    JSON form of the element, or, the write failing, stays. *)
Lemma append_written (p : path) (l : list value) (x : value) (w : world) :
  loaded p w = VArr l ->
  json_stable (VArr l) ->
  let w' := after_write p (VArr (l ++ [x])) (after_read p w) in
  stable_list p w' /\ exists more, stored_list p w' = (l ++ more)%list.
Proof.
  intros Hload Hstable w'. unfold w', after_write.
  destruct (write_ok (after_read p w) p) eqn:Hok.
  - assert (Hnew : loaded p (put_file p (Stored (Json (json_image (VArr (l ++ [x])))))
                               (after_read p w))
                   = VArr (l ++ [json_slot x])).
    { unfold loaded. rewrite file_at_put_same.
      now rewrite json_image_array, map_app, (stable_array l Hstable). }
    split.
    + exists (l ++ [json_slot x])%list. split; [ exact Hnew | ].
      unfold json_stable. rewrite <- (stable_array l Hstable) at 2.
      change (map json_slot l ++ [json_slot x])%list
        with (map json_slot l ++ map json_slot [x])%list.
      rewrite <- map_app, <- json_image_array.
      rewrite <- (stable_array l Hstable) at 1.
      change (map json_slot l ++ [json_slot x])%list
        with (map json_slot l ++ map json_slot [x])%list.
      rewrite <- map_app, <- json_image_array.
      apply json_image_idempotent.
    + exists [json_slot x]. unfold stored_list. now rewrite Hnew.
  - assert (Hsame : file_at p (log_line ("Error writing " ++ path_name p)
                                 (after_read p w)) = file_at p w)
      by (rewrite file_at_log_line; apply file_at_after_read).
    split.
    + apply stable_list_same_file with (w := w); [ exact Hsame | ].
      exists l. auto.
    + exists []. rewrite (stored_list_same_file _ _ _ Hsame).
      unfold stored_list. now rewrite Hload, app_nil_r.
Qed.

(* ===================================================================== *)
(** * Properties of the endpoints *)
(* ===================================================================== *)

Section Properties.

Variable Number_toString : number -> string.
Variable hmac_sha256_hex : string -> string -> string.

Local Abbreviation answer := (handle Number_toString hmac_sha256_hex).

Ltac enter :=
  unfold handle, serve, route.

Ltac step :=
  unfold io_bind, lift, ret; cbn [get_prop bind].

(** ** Community posts *)

(** C7. A post whose username or description is missing (or otherwise
    falsy) is answered 400 with the validation message and nothing at all
    changes: the community file, and so the number of stored posts, is what
    it was. *)
Theorem post_community_rejects_incomplete
  (e : env) (fields : list (string * value)) (w : world) :
  falsy (prop "username" fields) || falsy (prop "description" fields) = true ->
  answer e (CreatePost (VObj fields)) w =
    (Reply 400 (error_body "Post must include a username and description."), w)
  /\ loaded communityFile (snd (answer e (CreatePost (VObj fields)) w))
     = loaded communityFile w.
Proof.
  intros Hmissing.
  assert (Hrun : answer e (CreatePost (VObj fields)) w =
    (Reply 400 (error_body "Post must include a username and description."), w)).
  { enter. unfold post_community. step. now rewrite Hmissing. }
  split; [ exact Hrun | now rewrite Hrun ].
Qed.

(** ** Login and profile *)

Lemma login_none (e : env) (fields : list (string * value)) (w : world)
  (us : list value) :
  loaded usersFile w = VArr us ->
  none_named (prop "username" fields) us ->
  answer e (Login (VObj fields)) w =
    (Reply 400 (error_body "Invalid credentials."), after_read usersFile w).
Proof.
  intros Hload Hnone. enter. unfold post_login. step.
  rewrite readJson_eq, Hload. now rewrite (find_none_named _ _ Hnone).
Qed.

Lemma login_found (e : env) (fields ps : list (string * value)) (w : world)
  (us : list value) (i : nat) :
  loaded usersFile w = VArr us ->
  first_named (prop "username" fields) us i (VObj ps) ->
  answer e (Login (VObj fields)) w =
    (match verify_credential hmac_sha256_hex (prop "password" fields)
             (prop "passwordHash" ps) (prop "salt" ps) with
     | Ok true => Reply 200 (VObj (omit ["passwordHash"; "salt"] ps))
     | Ok false => Reply 400 (error_body "Invalid credentials.")
     | Throw err => Uncaught err
     end, after_read usersFile w).
Proof.
  intros Hload Hfirst. enter. unfold post_login. step.
  rewrite readJson_eq, Hload. rewrite (find_named _ _ _ _ Hfirst). cbn.
  destruct (verify_credential _ _ _ _) as [ [ | ] | err ]; reflexivity.
Qed.

(** Every answer of the login handler to an object body. *)
Lemma login_answers (e : env) (fields : list (string * value)) (w : world) :
  let r := fst (answer e (Login (VObj fields)) w) in
  (exists err, r = Uncaught err) \/
  r = Reply 400 (error_body "Invalid credentials.") \/
  (exists us i ps,
     loaded usersFile w = VArr us /\
     first_named (prop "username" fields) us i (VObj ps) /\
     verify_credential hmac_sha256_hex (prop "password" fields)
       (prop "passwordHash" ps) (prop "salt" ps) = Ok true /\
     r = Reply 200 (VObj (omit ["passwordHash"; "salt"] ps))).
Proof.
  enter. unfold post_login. step. rewrite readJson_eq.
  destruct (loaded usersFile w) as [ | | | | | us | ] eqn:Hload; cbn; eauto.
  destruct (find_from 0 _ us) as [ [ [i u] | ] | err ] eqn:Hfind; cbn; eauto.
  apply (find_named_inv _ us) in Hfind.
  destruct u as [ | | [ | ] | n | s | l | ps ]; cbn; eauto.
  - destruct (falsy (VNum n)); cbn; eauto.
  - destruct (falsy (VStr s)); cbn; eauto.
  - destruct (verify_credential _ _ _ _) as [ [ | ] | err ] eqn:Hverify; cbn;
      eauto.
    right; right. exists us, i, ps. auto.
Qed.

(** A body that is no object reads as one without properties. *)
Lemma login_primitive_body (e : env) (body : value) (w : world) :
  eq_null body = false ->
  exists fields, answer e (Login body) w = answer e (Login (VObj fields)) w.
Proof.
  destruct body; try discriminate; intros _;
    solve [ exists []; reflexivity | eexists; reflexivity ].
Qed.

Lemma login_null_body (e : env) (body : value) (w : world) :
  eq_null body = true ->
  exists err, fst (answer e (Login body) w) = Uncaught err.
Proof. destruct body; try discriminate; intros _; eexists; reflexivity. Qed.

(** GET /api/user/:username *)
Lemma get_user_answers (e : env) (name : string) (w : world) :
  let r := fst (answer e (GetUser name) w) in
  (exists err, r = Uncaught err) \/
  r = Reply 404 (error_body "User not found.") \/
  (exists us i ps,
     loaded usersFile w = VArr us /\
     first_named (VStr name) us i (VObj ps) /\
     r = Reply 200 (VObj (omit ["passwordHash"; "salt"] ps))).
Proof.
  enter. unfold get_user. step. rewrite readJson_eq.
  destruct (loaded usersFile w) as [ | | | | | us | ] eqn:Hload; cbn; eauto.
  destruct (find_from 0 _ us) as [ [ [i u] | ] | err ] eqn:Hfind; cbn; eauto.
  apply (find_named_inv _ us) in Hfind.
  destruct (has_username_string_inv name u) as (ps & -> & Hname);
    [ apply Hfind | ].
  cbn. right; right. exists us, i, ps. auto.
Qed.

(** C3. A 200 answer of login, and likewise of the profile endpoint, is the
    stored record that [find] stopped at, without its [passwordHash] and
    [salt] properties and with every other property as stored; and no
    answer of login, of any status and as sent on the wire, has a
    [passwordHash] or a [salt] property. *)
Theorem success_payload_strips_credentials
  (e : env) (w : world) :
  (forall fields body,
     fst (answer e (Login (VObj fields)) w) = Reply 200 body ->
     exists us i ps,
       loaded usersFile w = VArr us /\
       first_named (prop "username" fields) us i (VObj ps) /\
       body = VObj (omit ["passwordHash"; "salt"] ps))
  /\ (forall name body,
        fst (answer e (GetUser name) w) = Reply 200 body ->
        exists us i ps,
          loaded usersFile w = VArr us /\
          first_named (VStr name) us i (VObj ps) /\
          body = VObj (omit ["passwordHash"; "salt"] ps))
  /\ (forall ps k,
        lookup k (omit ["passwordHash"; "salt"] ps) =
          if String.eqb k "passwordHash" || String.eqb k "salt"
          then None else lookup k ps)
  /\ (forall body,
        let sent := payload (wire (fst (answer e (Login body) w))) in
        has_key "passwordHash" sent = false /\ has_key "salt" sent = false)
  /\ (forall name,
        let sent := payload (wire (fst (answer e (GetUser name) w))) in
        has_key "passwordHash" sent = false /\ has_key "salt" sent = false).
Proof.
  assert (Hsafe : forall ps,
    has_key "passwordHash" (json_image (VObj (omit ["passwordHash"; "salt"] ps))) = false /\
    has_key "salt" (json_image (VObj (omit ["passwordHash"; "salt"] ps))) = false).
  { intros ps. split; apply has_key_json_image, has_key_omit; reflexivity. }
  assert (Hobject : forall fields,
    let sent := payload (wire (fst (answer e (Login (VObj fields)) w))) in
    has_key "passwordHash" sent = false /\ has_key "salt" sent = false).
  { intros fields.
    destruct (login_answers e fields w) as [ (err & ->) | [ -> | (us & i & ps & _ & _ & _ & ->) ] ];
      cbn [wire payload]; auto. }
  split; [ | split; [ | split; [ | split ] ] ].
  - intros fields body Hrun.
    destruct (login_answers e fields w)
      as [ (err & Herr) | [ H400 | (us & i & ps & Hload & Hfirst & _ & H200) ] ];
      cbn zeta in *; try congruence.
    exists us, i, ps.
    split; [ exact Hload | split; [ exact Hfirst | congruence ] ].
  - intros name body Hrun.
    destruct (get_user_answers e name w)
      as [ (err & Herr) | [ H404 | (us & i & ps & Hload & Hfirst & H200) ] ];
      cbn zeta in *; try congruence.
    exists us, i, ps.
    split; [ exact Hload | split; [ exact Hfirst | congruence ] ].
  - intros ps k. rewrite lookup_omit. simpl. now rewrite orb_false_r.
  - intros body. destruct (eq_null body) eqn:Hnull.
    + destruct (login_null_body e body w Hnull) as (err & Herr).
      cbn zeta. rewrite Herr. auto.
    + destruct (login_primitive_body e body w Hnull) as (fields & ->).
      apply Hobject.
  - intros name.
    destruct (get_user_answers e name w)
      as [ (err & ->) | [ -> | (us & i & ps & _ & _ & ->) ] ];
      cbn [wire payload]; auto.
Qed.

(** C4. Login answers an unknown username and a failed hash comparison with
    one and the same answer, status 400 and body
    [{error: "Invalid credentials."}]; the files are as they were. *)
Theorem login_failures_are_generic
  (e : env) (fields : list (string * value)) (w : world) (us : list value) :
  loaded usersFile w = VArr us ->
  (none_named (prop "username" fields) us ->
   answer e (Login (VObj fields)) w =
     (Reply 400 (error_body "Invalid credentials."), after_read usersFile w))
  /\ (forall i ps,
        first_named (prop "username" fields) us i (VObj ps) ->
        verify_credential hmac_sha256_hex (prop "password" fields)
          (prop "passwordHash" ps) (prop "salt" ps) = Ok false ->
        answer e (Login (VObj fields)) w =
          (Reply 400 (error_body "Invalid credentials."), after_read usersFile w))
  /\ (forall q, file_at q (after_read usersFile w) = file_at q w).
Proof.
  intros Hload. split; [ | split ].
  - intros Hnone. now apply login_none with (us := us).
  - intros i ps Hfirst Hverify.
    rewrite (login_found e fields ps w us i Hload Hfirst). now rewrite Hverify.
  - intros q. apply file_at_after_read.
Qed.

(** ** Registration *)

Lemma register_answers (e : env) (fields : list (string * value)) (w : world) :
  let r := answer e (Register (VObj fields)) w in
  (status_of (fst r) <> 200 /\ forall q, file_at q (snd r) = file_at q w) \/
  (exists us pw,
     loaded usersFile w = VArr us /\
     none_named (prop "username" fields) us /\
     truthy (prop "username" fields) = true /\
     prop "password" fields = VStr pw /\
     truthy (VStr pw) = true /\
     r = (Reply 200 (message_body "User registered successfully."),
          after_write usersFile
            (VArr (us ++ [registered_record e fields
                            (hmac_sha256_hex (random_hex e) pw)]))
            (after_read usersFile w))).
Proof.
  enter. unfold post_register. step.
  destruct (falsy (prop "username" fields)) eqn:Huser; cbn.
  { left. split; [ discriminate | reflexivity ]. }
  destruct (falsy (prop "password" fields)) eqn:Hpass; cbn.
  { left. split; [ discriminate | reflexivity ]. }
  rewrite readJson_eq.
  assert (Hread : forall q, file_at q (after_read usersFile w) = file_at q w)
    by (intros q; apply file_at_after_read).
  destruct (loaded usersFile w) as [ | | | | | us | ] eqn:Hload; cbn;
    try (left; split; [ discriminate | exact Hread ]).
  destruct (find_from 0 _ us) as [ [ [i u] | ] | err ] eqn:Hfind; cbn;
    try (left; split; [ discriminate | exact Hread ]).
  - apply (find_named_inv _ us) in Hfind.
    rewrite (named_is_truthy (prop "username" fields) u).
    + cbn. left; split; [ discriminate | exact Hread ].
    + apply Hfind.
    + unfold falsy in Huser. now apply negb_false_iff in Huser.
  - apply (find_named_inv _ us) in Hfind.
    unfold derive_credential.
    destruct (prop "password" fields) as [ | | b | n | pw | l | o ] eqn:Hpw; cbn;
      try (left; split; [ discriminate | exact Hread ]).
    rewrite writeJson_eq by discriminate.
    right. exists us, pw.
    unfold falsy in Huser, Hpass.
    apply negb_false_iff in Huser. apply negb_false_iff in Hpass.
    repeat split; auto.
Qed.

(** ** Credentials *)

Lemma verify_derived (e : env) (password : value) (hash salt : string) :
  derive_credential hmac_sha256_hex e password = Ok (hash, salt) ->
  verify_credential hmac_sha256_hex password (VStr hash) (VStr salt) = Ok true.
Proof.
  unfold derive_credential, verify_credential, hmac_hex.
  destruct password; simpl; try discriminate.
  intros H. injection H as <- <-. simpl. now rewrite String.eqb_refl.
Qed.

Lemma login_after_register
  (e e' : env) (fields fields' : list (string * value)) (w : world)
  (us : list value) (name : string) (body : value) :
  loaded usersFile w = VArr us ->
  Forall is_user us ->
  write_ok w usersFile = true ->
  prop "username" fields = VStr name ->
  fst (answer e (Register (VObj fields)) w) = Reply 200 body ->
  prop "username" fields' = VStr name ->
  prop "password" fields' = prop "password" fields ->
  exists ps,
    fst (answer e' (Login (VObj fields'))
           (snd (answer e (Register (VObj fields)) w)))
      = Reply 200 (VObj (omit ["passwordHash"; "salt"] ps))
    /\ lookup "username" ps = Some (VStr name).
Proof.
  intros Hload Husers Hok Hname Hreg Hname' Hpass'.
  destruct (register_answers e fields w)
    as [ [Hstatus _] | (us0 & pw & Hload0 & Hnone & _ & Hpw & _ & Hrun) ];
    cbn zeta in *.
  { rewrite Hreg in Hstatus. now elim Hstatus. }
  rewrite Hload in Hload0. injection Hload0 as <-.
  rewrite Hrun. cbn [snd].
  set (hash := hmac_sha256_hex (random_hex e) pw) in *.
  set (w' := after_write usersFile _ _).
  destruct (registered_record_props e fields hash) as (rec & Hrec & Hr_name & Hr_hash & Hr_salt).
  rewrite Hname in Hr_name, Hnone.
  assert (Hload' : loaded usersFile w' =
            VArr (map json_slot us ++ [VObj (json_props rec)])).
  { unfold w'. rewrite loaded_after_write
      by (now rewrite write_ok_after_read).
    now rewrite json_image_array, map_app, Hrec. }
  assert (Hps_name : lookup "username" (json_props rec) = Some (VStr name))
    by (apply (lookup_json_props _ _ _ Hr_name); discriminate).
  assert (Hps_hash : lookup "passwordHash" (json_props rec) = Some (VStr hash))
    by (apply (lookup_json_props _ _ _ Hr_hash); discriminate).
  assert (Hps_salt : lookup "salt" (json_props rec) = Some (VStr (random_hex e)))
    by (apply (lookup_json_props _ _ _ Hr_salt); discriminate).
  exists (json_props rec). split; [ | exact Hps_name ].
  rewrite (login_found e' fields' (json_props rec) w' _
             (length (map json_slot us)) Hload').
  - unfold prop at 2 3. rewrite Hps_hash, Hps_salt, Hpass', Hpw.
    unfold verify_credential, hmac_hex, hash. cbn [bind strict_eq].
    now rewrite String.eqb_refl.
  - rewrite Hname'. apply first_named_appended.
    + now apply none_named_json_slot.
    + rewrite has_username_object. unfold prop. rewrite Hps_name.
      cbn [strict_eq]. now rewrite String.eqb_refl.
Qed.

(** C1. The pair (hash, salt) derived from a password verifies that same
    password: the HMAC recomputed under the stored salt is the stored hash.
    Deriving succeeds on every string.  So once a registration was answered
    200 and written to the users file, a login with the same username and
    password is answered 200 with the profile of that username. *)
Theorem credential_round_trip (e e' : env) :
  (forall password hash salt,
     derive_credential hmac_sha256_hex e password = Ok (hash, salt) ->
     verify_credential hmac_sha256_hex password (VStr hash) (VStr salt)
       = Ok true)
  /\ (forall p : string,
        derive_credential hmac_sha256_hex e (VStr p)
          = Ok (hmac_sha256_hex (random_hex e) p, random_hex e))
  /\ (forall fields fields' w us name body,
        loaded usersFile w = VArr us ->
        Forall is_user us ->
        write_ok w usersFile = true ->
        prop "username" fields = VStr name ->
        fst (answer e (Register (VObj fields)) w) = Reply 200 body ->
        prop "username" fields' = VStr name ->
        prop "password" fields' = prop "password" fields ->
        exists ps,
          fst (answer e' (Login (VObj fields'))
                 (snd (answer e (Register (VObj fields)) w)))
            = Reply 200 (VObj (omit ["passwordHash"; "salt"] ps))
          /\ lookup "username" ps = Some (VStr name)).
Proof.
  split; [ | split ].
  - intros password hash salt. apply verify_derived.
  - reflexivity.
  - intros fields fields' w us name body. apply login_after_register.
Qed.

(** ** Points *)

Lemma points_rejected (e : env) (name : string) (fields : list (string * value))
  (w : world) :
  typeof (prop "points" fields) <> "number" ->
  answer e (AddPoints name (VObj fields)) w =
    (Reply 400 (error_body points_must_be_number), w).
Proof.
  intros Htype. enter. unfold post_points. step.
  destruct (String.eqb (typeof (prop "points" fields)) "number") eqn:Heq.
  - apply String.eqb_eq in Heq. contradiction.
  - reflexivity.
Qed.

Lemma points_unknown (e : env) (name : string) (fields : list (string * value))
  (w : world) (d : number) (us : list value) :
  prop "points" fields = VNum d ->
  loaded usersFile w = VArr us ->
  none_named (VStr name) us ->
  answer e (AddPoints name (VObj fields)) w =
    (Reply 404 (error_body "User not found."), after_read usersFile w).
Proof.
  intros Hd Hload Hnone. enter. unfold post_points. step.
  rewrite Hd. cbn. rewrite readJson_eq, Hload.
  now rewrite (find_none_named _ _ Hnone).
Qed.

Lemma points_added (e : env) (name : string) (fields ps : list (string * value))
  (w : world) (d : number) (us : list value) (i : nat) (total : value) :
  prop "points" fields = VNum d ->
  loaded usersFile w = VArr us ->
  first_named (VStr name) us i (VObj ps) ->
  add Number_toString (or_else (prop "points" ps) (VNum (num_of_Z 0))) (VNum d)
    = Ok total ->
  answer e (AddPoints name (VObj fields)) w =
    (Reply 200 (VObj [("points", total)]),
     after_write usersFile
       (VArr (replace_at i (VObj (assign "points" total ps)) us))
       (after_read usersFile w)).
Proof.
  intros Hd Hload Hfirst Htotal. enter. unfold post_points. step.
  rewrite Hd. cbn. rewrite readJson_eq, Hload.
  rewrite (find_named _ _ _ _ Hfirst). cbn.
  change (S754_zero false) with (num_of_Z 0). rewrite Htotal. cbn.
  rewrite writeJson_eq by discriminate.
  now rewrite prop_assign_same.
Qed.

(** When [+] throws on the stored points nothing is written. *)
Lemma points_thrown (e : env) (name : string) (fields ps : list (string * value))
  (w : world) (d : number) (us : list value) (i : nat) (err : exn) :
  prop "points" fields = VNum d ->
  loaded usersFile w = VArr us ->
  first_named (VStr name) us i (VObj ps) ->
  add Number_toString (or_else (prop "points" ps) (VNum (num_of_Z 0))) (VNum d)
    = Throw err ->
  answer e (AddPoints name (VObj fields)) w =
    (Uncaught err, after_read usersFile w).
Proof.
  intros Hd Hload Hfirst Htotal. enter. unfold post_points. step.
  rewrite Hd. cbn. rewrite readJson_eq, Hload.
  rewrite (find_named _ _ _ _ Hfirst). cbn.
  change (S754_zero false) with (num_of_Z 0). now rewrite Htotal.
Qed.

Lemma points_added_number (e : env) (name : string)
  (fields ps : list (string * value)) (w : world) (d p : number)
  (us : list value) (i : nat) :
  prop "points" fields = VNum d ->
  loaded usersFile w = VArr us ->
  first_named (VStr name) us i (VObj ps) ->
  holds_points (prop "points" ps) p ->
  answer e (AddPoints name (VObj fields)) w =
    (Reply 200 (VObj [("points", VNum (num_add p d))]),
     after_write usersFile
       (VArr (replace_at i (VObj (assign "points" (VNum (num_add p d)) ps)) us))
       (after_read usersFile w)).
Proof.
  intros Hd Hload Hfirst Hpoints.
  apply (points_added e name fields ps w d us i _ Hd Hload Hfirst).
  rewrite (or_else_points _ _ Hpoints). apply add_numbers.
Qed.

Lemma points_stored (i : nat) (total : value) (ps : list (string * value))
  (us : list value) (w : world) :
  write_ok w usersFile = true ->
  total <> VUndefined ->
  loaded usersFile
    (after_write usersFile
       (VArr (replace_at i (VObj (assign "points" total ps)) us))
       (after_read usersFile w))
  = VArr (replace_at i (VObj (json_props (assign "points" total ps)))
            (map json_slot us))
  /\ prop "points" (json_props (assign "points" total ps)) = json_image total
  /\ forall k, k <> "points" ->
       lookup k (json_props (assign "points" total ps)) = lookup k (json_props ps).
Proof.
  intros Hok Htotal. split; [ | split ].
  - rewrite loaded_after_write by (now rewrite write_ok_after_read).
    now rewrite json_image_array, replace_at_map.
  - unfold prop. now rewrite lookup_json_props_assign_same.
  - intros k Hk. now apply lookup_json_props_assign_other.
Qed.

(** C5. POST /api/user/:username/points: a [points] field that is no Number
    is answered 400 and nothing changes; an unknown username is answered
    404 and no file changes; otherwise the record found gets, as its
    points, its previous points (nothing or [null] counting as 0) plus the
    delta, negative or not, the users file is rewritten with that record
    and the answer carries the new total.  From 0, adding 5 and then -2
    yields 3. *)
Theorem add_points_accumulates
  (e : env) (name : string) (fields : list (string * value)) (w : world) :
  (typeof (prop "points" fields) <> "number" ->
   answer e (AddPoints name (VObj fields)) w =
     (Reply 400 (error_body points_must_be_number), w))
  /\ (forall d us,
        prop "points" fields = VNum d ->
        loaded usersFile w = VArr us ->
        none_named (VStr name) us ->
        fst (answer e (AddPoints name (VObj fields)) w)
          = Reply 404 (error_body "User not found.")
        /\ forall q, file_at q (snd (answer e (AddPoints name (VObj fields)) w))
                     = file_at q w)
  /\ (forall d us i ps p,
        prop "points" fields = VNum d ->
        loaded usersFile w = VArr us ->
        first_named (VStr name) us i (VObj ps) ->
        holds_points (prop "points" ps) p ->
        write_ok w usersFile = true ->
        fst (answer e (AddPoints name (VObj fields)) w)
          = Reply 200 (VObj [("points", VNum (num_add p d))])
        /\ exists ps',
             loaded usersFile (snd (answer e (AddPoints name (VObj fields)) w))
               = VArr (replace_at i (VObj ps') (map json_slot us))
             /\ prop "points" ps' = json_image (VNum (num_add p d))
             /\ forall k, k <> "points" ->
                  lookup k ps' = lookup k (json_props ps))
  /\ (let w5 := snd (Sample.run (AddPoints "alice" (Sample.points_body (num_of_Z 5)))
                       Sample.with_alice) in
      let r := Sample.run (AddPoints "alice" (Sample.points_body (num_of_Z (-2)))) w5 in
      stored_points "alice" Sample.with_alice = VNum (num_of_Z 0)
      /\ fst r = Reply 200 (VObj [("points", VNum (num_of_Z 3))])
      /\ stored_points "alice" (snd r) = VNum (num_of_Z 3)).
Proof.
  split; [ | split; [ | split ] ].
  - apply points_rejected.
  - intros d us Hd Hload Hnone.
    rewrite (points_unknown e name fields w d us Hd Hload Hnone).
    split; [ reflexivity | intros q; apply file_at_after_read ].
  - intros d us i ps p Hd Hload Hfirst Hpoints Hok.
    rewrite (points_added_number e name fields ps w d p us i Hd Hload Hfirst Hpoints).
    split; [ reflexivity | ].
    exists (json_props (assign "points" (VNum (num_add p d)) ps)).
    cbn [snd]. apply points_stored; [ exact Hok | discriminate ].
  - vm_compute. repeat split.
Qed.

(** The users file after points were added to a user record: the record is
    still the first of its name, with the new points in JSON form. *)
Lemma points_then_first (name : string) (i : nat) (total : value)
  (ps : list (string * value)) (us : list value) (w : world) :
  write_ok w usersFile = true ->
  total <> VUndefined ->
  Forall is_user us ->
  first_named (VStr name) us i (VObj ps) ->
  let w' := after_write usersFile
              (VArr (replace_at i (VObj (assign "points" total ps)) us))
              (after_read usersFile w) in
  exists us' ps',
    loaded usersFile w' = VArr us' /\
    first_named (VStr name) us' i (VObj ps') /\
    prop "points" ps' = json_image total /\
    write_ok w' usersFile = true.
Proof.
  intros Hok Htotal Husers Hfirst w'.
  destruct (points_stored i total ps us w Hok Htotal) as (Hload' & Hpoints & Hother).
  exists (replace_at i (VObj (json_props (assign "points" total ps))) (map json_slot us)),
         (json_props (assign "points" total ps)).
  split; [ exact Hload' | split; [ | split; [ exact Hpoints | ] ] ].
  - apply first_named_replaced with (u := json_slot (VObj ps)).
    + now apply first_named_json_slot.
    + destruct Hfirst as (_ & Hname & _).
      apply has_username_string_inv in Hname as (ps0 & Heq & Hname).
      injection Heq as <-.
      rewrite has_username_object. unfold prop.
      rewrite Hother by discriminate.
      rewrite (lookup_json_props _ _ _ Hname) by discriminate.
      simpl. now rewrite String.eqb_refl.
  - unfold w'. now rewrite write_ok_after_write, write_ok_after_read.
Qed.

(** C10, as the code has it. The check on [points] is on the type only, so
    [NaN] and the infinities pass it.  With such a delta the handler
    computes a total that is not finite ([NaN] for the delta [NaN]); the
    answer and the users file are JSON, where such a Number is written
    [null]; and the next call, finding [null], counts from 0: it answers
    its own delta. *)
Theorem nonfinite_points_reset_the_total
  (e e' : env) (name : string) (fields : list (string * value)) (w : world)
  (us : list value) (i : nat) (ps : list (string * value)) (p d : number) :
  prop "points" fields = VNum d ->
  num_is_finite d = false ->
  loaded usersFile w = VArr us ->
  Forall is_user us ->
  first_named (VStr name) us i (VObj ps) ->
  holds_points (prop "points" ps) p ->
  write_ok w usersFile = true ->
  let r := answer e (AddPoints name (VObj fields)) w in
  typeof (VNum d) = "number"
  /\ fst r = Reply 200 (VObj [("points", VNum (num_add p d))])
  /\ num_is_finite (num_add p d) = false
  /\ (d = S754_nan -> num_add p d = S754_nan)
  /\ wire (fst r) = Reply 200 (VObj [("points", VNull)])
  /\ stored_points name (snd r) = VNull
  /\ forall fields' d',
       prop "points" fields' = VNum d' ->
       fst (answer e' (AddPoints name (VObj fields')) (snd r))
         = Reply 200 (VObj [("points", VNum (num_add (S754_zero false) d'))]).
Proof.
  intros Hd Hinf Hload Husers Hfirst Hpoints Hok r.
  assert (Htotal : num_is_finite (num_add p d) = false)
    by now apply num_add_not_finite.
  assert (Himage : json_image (VNum (num_add p d)) = VNull)
    by (simpl; now rewrite Htotal).
  assert (Hrun : r =
    (Reply 200 (VObj [("points", VNum (num_add p d))]),
     after_write usersFile
       (VArr (replace_at i (VObj (assign "points" (VNum (num_add p d)) ps)) us))
       (after_read usersFile w))).
  { unfold r.
    now rewrite (points_added_number e name fields ps w d p us i Hd Hload Hfirst Hpoints). }
  destruct (points_then_first name i (VNum (num_add p d)) ps us w Hok) as
    (us' & ps' & Hload' & Hfirst' & Hpoints' & Hok'); auto; try discriminate.
  rewrite Himage in Hpoints'.
  rewrite Hrun. cbn [fst snd].
  split; [ reflexivity | split; [ reflexivity | split; [ exact Htotal | ] ] ].
  split; [ intros ->; apply num_add_nan_r | ].
  split; [ unfold wire; cbn [json_image json_props]; now rewrite Htotal | split ].
  - unfold stored_points. rewrite Hload'.
    rewrite (find_first_named _ _ _ _ Hfirst'). exact Hpoints'.
  - intros fields' d' Hd'.
    rewrite (points_added_number e' name fields' ps' _ d' (S754_zero false) us' i
               Hd' Hload' Hfirst');
      [ reflexivity | rewrite Hpoints'; constructor ].
Qed.

(** ** Progress *)

Lemma progress_rejected (e : env) (name : string) (fields : list (string * value))
  (w : world) :
  eq_null (prop "steps" fields) && eq_null (prop "minutes" fields) = true ->
  answer e (LogProgress name (VObj fields)) w =
    (Reply 400 (error_body "Please provide steps or minutes."), w).
Proof.
  intros Habsent. enter. unfold post_progress. step. now rewrite Habsent.
Qed.

Lemma progress_appended (e : env) (name : string) (fields : list (string * value))
  (w : world) (entries : list value) :
  eq_null (prop "steps" fields) && eq_null (prop "minutes" fields) = false ->
  loaded progressFile w = VArr entries ->
  answer e (LogProgress name (VObj fields)) w =
    (Reply 200 (message_body "Progress logged successfully."),
     after_write progressFile
       (VArr (entries ++
                [VObj [ ("username", VStr name);
                        ("steps", or_else (prop "steps" fields) VNull);
                        ("minutes", or_else (prop "minutes" fields) VNull);
                        ("timestamp", VStr (now_iso e)) ]]))
       (after_read progressFile w)).
Proof.
  intros Hgiven Hload. enter. unfold post_progress. step. rewrite Hgiven.
  rewrite readJson_eq, Hload. cbn. now rewrite writeJson_eq by discriminate.
Qed.

Lemma progress_status (e : env) (name : string) (fields : list (string * value))
  (w : world) :
  status_of (fst (answer e (LogProgress name (VObj fields)) w)) = 400 <->
  eq_null (prop "steps" fields) && eq_null (prop "minutes" fields) = true.
Proof.
  split.
  - destruct (eq_null (prop "steps" fields) && eq_null (prop "minutes" fields))
      eqn:Hgiven; [ reflexivity | ].
    enter. unfold post_progress. step. rewrite Hgiven. rewrite readJson_eq.
    destruct (loaded progressFile w); cbn; try discriminate.
    rewrite writeJson_eq by discriminate. cbn. discriminate.
  - intros Habsent. now rewrite progress_rejected.
Qed.

Lemma logged_entry_eq (e : env) (name : string) (fields : list (string * value)) :
  json_slot (VObj [ ("username", VStr name);
                    ("steps", or_else (prop "steps" fields) VNull);
                    ("minutes", or_else (prop "minutes" fields) VNull);
                    ("timestamp", VStr (now_iso e)) ])
  = logged_entry e name fields.
Proof.
  unfold logged_entry.
  pose proof (or_else_null_defined (prop "steps" fields)) as Hs.
  pose proof (or_else_null_defined (prop "minutes" fields)) as Hm.
  change (json_slot (VObj ?l)) with (VObj (json_props l)).
  destruct (or_else (prop "steps" fields) VNull); try congruence;
    destruct (or_else (prop "minutes" fields) VNull); try congruence;
    reflexivity.
Qed.

Lemma progress_file_after (e : env) (name : string) (fields : list (string * value))
  (w : world) (entries : list value) :
  eq_null (prop "steps" fields) && eq_null (prop "minutes" fields) = false ->
  loaded progressFile w = VArr entries ->
  write_ok w progressFile = true ->
  loaded progressFile (snd (answer e (LogProgress name (VObj fields)) w))
    = VArr (map json_slot entries ++ [logged_entry e name fields]).
Proof.
  intros Hgiven Hload Hok.
  rewrite (progress_appended e name fields w entries Hgiven Hload). cbn [snd].
  rewrite loaded_after_write by (now rewrite write_ok_after_read).
  now rewrite json_image_array, map_app, <- logged_entry_eq.
Qed.

Lemma progress_listed (e : env) (name : string) (w : world) (entries : list value) :
  loaded progressFile w = VArr entries ->
  Forall (fun p => eq_null p = false) entries ->
  answer e (ListProgress name) w =
    (Reply 200 (VArr (filter (entry_of name) entries)), after_read progressFile w).
Proof.
  intros Hload Hentries. enter. unfold get_progress. step.
  rewrite readJson_eq, Hload. cbn.
  now rewrite (filter_with_username name entries Hentries).
Qed.

(** C6. The progress handler answers 400 exactly when both [steps] and
    [minutes] are absent ([null] or not given), and then changes nothing.
    Otherwise it appends one entry, stamped with the clock reading of the
    server, to the progress file, whatever the users file holds and without
    touching it.  The listing returns the stored entries of that username,
    in stored order.  Logging 500 steps for bob in an empty directory and
    listing bob gives that one entry, with [minutes] null. *)
Theorem progress_log_and_list (e : env) (name : string) (w : world) :
  (forall fields,
     status_of (fst (answer e (LogProgress name (VObj fields)) w)) = 400 <->
     eq_null (prop "steps" fields) && eq_null (prop "minutes" fields) = true)
  /\ (forall fields,
        eq_null (prop "steps" fields) && eq_null (prop "minutes" fields) = true ->
        answer e (LogProgress name (VObj fields)) w =
          (Reply 400 (error_body "Please provide steps or minutes."), w))
  /\ (forall fields entries,
        eq_null (prop "steps" fields) && eq_null (prop "minutes" fields) = false ->
        loaded progressFile w = VArr entries ->
        write_ok w progressFile = true ->
        let r := answer e (LogProgress name (VObj fields)) w in
        fst r = Reply 200 (message_body "Progress logged successfully.")
        /\ loaded progressFile (snd r)
             = VArr (map json_slot entries ++ [logged_entry e name fields])
        /\ file_at usersFile (snd r) = file_at usersFile w)
  /\ (forall entries,
        loaded progressFile w = VArr entries ->
        Forall (fun p => eq_null p = false) entries ->
        fst (answer e (ListProgress name) w)
          = Reply 200 (VArr (filter (entry_of name) entries)))
  /\ (let steps500 := VObj [("steps", VNum (num_of_Z 500))] in
      let w1 := snd (Sample.run (LogProgress "bob" steps500) Sample.empty_dir) in
      fst (Sample.run (ListProgress "bob") w1)
        = Reply 200
            (VArr [VObj [ ("username", VStr "bob");
                          ("steps", VNum (num_of_Z 500));
                          ("minutes", VNull);
                          ("timestamp", VStr (now_iso Sample.e0)) ]])).
Proof.
  split; [ | split; [ | split; [ | split ] ] ].
  - intros fields. apply progress_status.
  - intros fields. apply progress_rejected.
  - intros fields entries Hgiven Hload Hok r. unfold r.
    split; [ | split ].
    + now rewrite (progress_appended e name fields w entries Hgiven Hload).
    + now apply progress_file_after.
    + rewrite (progress_appended e name fields w entries Hgiven Hload).
      cbn [snd]. rewrite file_at_after_write_other by discriminate.
      apply file_at_after_read.
  - intros entries Hload Hentries.
    now rewrite (progress_listed e name w entries Hload Hentries).
  - vm_compute. reflexivity.
Qed.

(** C9. A progress request with [steps] 0 and no [minutes] passes the
    validation, for 0 is neither [null] nor [undefined]; but 0 is falsy, and
    the entry appended to the progress file has [steps] null, and [minutes]
    null: the 0 is not kept. *)
Theorem zero_steps_stored_as_null
  (e : env) (name : string) (fields : list (string * value)) (w : world)
  (entries : list value) (sign : bool) :
  prop "steps" fields = VNum (S754_zero sign) ->
  eq_null (prop "minutes" fields) = true ->
  loaded progressFile w = VArr entries ->
  write_ok w progressFile = true ->
  let r := answer e (LogProgress name (VObj fields)) w in
  eq_null (prop "steps" fields) && eq_null (prop "minutes" fields) = false
  /\ fst r = Reply 200 (message_body "Progress logged successfully.")
  /\ loaded progressFile (snd r)
       = VArr (map json_slot entries ++
                 [VObj [ ("username", VStr name);
                         ("steps", VNull);
                         ("minutes", VNull);
                         ("timestamp", VStr (now_iso e)) ]]).
Proof.
  intros Hsteps Hminutes Hload Hok r.
  assert (Hgiven :
    eq_null (prop "steps" fields) && eq_null (prop "minutes" fields) = false)
    by now rewrite Hsteps.
  split; [ exact Hgiven | split ].
  - unfold r. now rewrite (progress_appended e name fields w entries Hgiven Hload).
  - unfold r. rewrite (progress_file_after e name fields w entries Hgiven Hload Hok).
    unfold logged_entry. rewrite Hsteps.
    destruct (prop "minutes" fields); try discriminate; reflexivity.
Qed.

(** ** The users file under every request *)

Ltac crush_io :=
  repeat first
    [ rewrite readJson_eq
    | rewrite writeJson_eq by discriminate
    | progress cbn [fst snd Array_push]
    | match goal with
      | |- context [Array_push (loaded ?p ?w) _] => destruct (loaded p w) eqn:?
      end
    | match goal with
      | |- context [match ?x with _ => _ end] =>
          lazymatch x with
          | context [match _ with _ => _ end] => fail
          | _ => destruct x eqn:?
          end
      end ].

Ltac users_file_kept :=
  crush_io;
  first
    [ reflexivity
    | exact (file_at_after_read usersFile _ _)
    | rewrite file_at_after_write_other by discriminate;
      exact (file_at_after_read usersFile _ _) ].

(** Every request but a registration and an addition of points leaves the
    users file as it is. *)
Lemma users_file_untouched (e : env) (r : request) (w : world) :
  match r with
  | Register _ | AddPoints _ _ => True
  | _ => file_at usersFile (snd (answer e r w)) = file_at usersFile w
  end.
Proof.
  destruct r as [ body | body | name | name body | name body | name | | body ];
    try exact I; enter.
  - unfold post_login. step. users_file_kept.
  - unfold get_user. step. users_file_kept.
  - unfold post_progress. step. users_file_kept.
  - unfold get_progress. step. users_file_kept.
  - unfold get_community. step. users_file_kept.
  - unfold post_community. step. users_file_kept.
Qed.

Lemma register_keeps_unique (e : env) (body : value) (w : world) :
  username_typed (Register body) = true ->
  unique_usernames w ->
  unique_usernames (snd (answer e (Register body) w)).
Proof.
  intros Htyped Hinv.
  destruct body as [ | | b | n | s | l | fields ];
    try (apply unique_usernames_same_file with (w := w);
         [ reflexivity | exact Hinv ]).
  destruct (register_answers e fields w)
    as [ [_ Hfiles] | (us & pw & Hload & Hnone & Htruthy & _ & _ & Hrun) ];
    cbn zeta in *.
  { now apply unique_usernames_same_file with (w := w). }
  rewrite Hrun. cbn [snd].
  destruct Hinv as (us0 & Hload0 & Husers & Hnodup).
  rewrite Hload in Hload0. injection Hload0 as <-.
  simpl in Htyped.
  destruct (prop "username" fields) as [ | | b | n | name | l | o ] eqn:Hname;
    try (unfold falsy in Htyped; rewrite Htruthy in Htyped; discriminate).
  destruct (users_json_slot us Husers) as [Husers' Hnames'].
  destruct (registered_record_props e fields (hmac_sha256_hex (random_hex e) pw))
    as (rec & -> & Hr_name & _).
  rewrite Hname in Hr_name.
  assert (Hrec : is_user (VObj rec)) by (exists rec, name; auto).
  destruct (is_user_json_slot (VObj rec) Hrec) as [Hrec' Hrec_name].
  assert (Hrec_is : username_of (json_slot (VObj rec)) = VStr name).
  { rewrite Hrec_name. unfold username_of, prop. now rewrite Hr_name. }
  apply unique_usernames_written
    with (us := (map json_slot us ++ [json_slot (VObj rec)])%list).
  - exists us. auto.
  - now rewrite json_image_array, map_app.
  - apply Forall_app. split; [ exact Husers' | ].
    constructor; [ exact Hrec' | constructor ].
  - rewrite map_app, Hnames'.
    cbn [map]. rewrite Hrec_is.
    apply NoDup_app; [ exact Hnodup | repeat constructor; simpl; tauto | ].
    intros a Ha [ <- | [] ].
    now apply (none_named_not_in name us Husers).
Qed.

Lemma points_keep_unique (e : env) (name : string) (body : value) (w : world) :
  unique_usernames w ->
  unique_usernames (snd (answer e (AddPoints name body) w)).
Proof.
  intros Hinv.
  destruct body as [ | | b | n | s | l | fields ];
    try (apply unique_usernames_same_file with (w := w);
         [ reflexivity | exact Hinv ]).
  destruct (prop "points" fields) as [ | | b | d | s | l | o ] eqn:Hd;
    try (rewrite points_rejected by (rewrite Hd; discriminate); exact Hinv).
  pose proof Hinv as (us & Hload & Husers & Hnodup).
  destruct (find_users_total name us Husers) as [ Hnone | (i & ps & Hfirst) ].
  - rewrite (points_unknown e name fields w d us Hd Hload Hnone). cbn [snd].
    apply unique_usernames_same_file with (w := w);
      [ apply file_at_after_read | exact Hinv ].
  - destruct (add Number_toString
                (or_else (prop "points" ps) (VNum (num_of_Z 0))) (VNum d))
      as [ total | err ] eqn:Htotal;
      [ | rewrite (points_thrown e name fields ps w d us i err Hd Hload Hfirst Htotal);
          cbn [snd];
          apply unique_usernames_same_file with (w := w);
          [ apply file_at_after_read | exact Hinv ] ].
    rewrite (points_added e name fields ps w d us i total Hd Hload Hfirst Htotal).
    cbn [snd].
    destruct Hfirst as (Hnth & Hname & _).
    apply has_username_string_inv in Hname as (ps0 & Heq & Hname).
    injection Heq as <-.
    destruct (replace_at_users i (VObj ps) (VObj (assign "points" total ps)) us)
      as [Husers' Hnames']; auto.
    { exists (assign "points" total ps), name. split; [ reflexivity | ].
      now rewrite lookup_assign_other by discriminate. }
    { simpl. unfold prop. now rewrite lookup_assign_other by discriminate. }
    destruct (users_json_slot _ Husers') as [Husers'' Hnames''].
    apply unique_usernames_written
      with (us := map json_slot (replace_at i (VObj (assign "points" total ps)) us));
      auto.
    now rewrite Hnames'', Hnames'.
Qed.

(** C2, for string usernames.  When the users file holds user records
    (objects whose username is a string) with pairwise distinct usernames,
    it still does after any request, a registration naming a string as the
    data model has it.  Registering, with a password, a name that is
    already there is answered 400 [Username already exists.], nothing
    changes, and the number of records of that name is 1 before and after. *)
Theorem usernames_stay_unique (e : env) (w : world) :
  unique_usernames w ->
  (forall r, username_typed r = true -> unique_usernames (snd (answer e r w)))
  /\ (forall fields name,
        prop "username" fields = VStr name ->
        name <> EmptyString ->
        truthy (prop "password" fields) = true ->
        registered name w ->
        answer e (Register (VObj fields)) w
          = (Reply 400 (error_body "Username already exists."), w)
        /\ count_username name w = 1
        /\ count_username name (snd (answer e (Register (VObj fields)) w)) = 1).
Proof.
  intros Hinv. split.
  - intros r Htyped.
    pose proof (users_file_untouched e r w) as Hkept.
    destruct r as [ body | body | name | name body | name body | name | | body ];
      try (now apply unique_usernames_same_file with (w := w)).
    + now apply register_keeps_unique.
    + now apply points_keep_unique.
  - intros fields name Hname Hnonempty Hpass (us & Hload & Hin).
    destruct Hinv as (us0 & Hload0 & Husers & Hnodup).
    rewrite Hload in Hload0. injection Hload0 as <-.
    assert (Hcount : count_username name w = 1).
    { unfold count_username. rewrite Hload. now apply count_unique. }
    assert (Hfile : after_read usersFile w = w).
    { unfold loaded in Hload. unfold after_read.
      destruct (file_at usersFile w) as [ | | [ | raw | doc ] ]; try reflexivity;
        injection Hload as <-; now elim Hin. }
    assert (Hrun : answer e (Register (VObj fields)) w
                   = (Reply 400 (error_body "Username already exists."), w)).
    { destruct (first_named_users name us Husers Hin) as (i & ps & Hfirst).
      enter. unfold post_register. step. rewrite Hname.
      assert (Hfalsy : falsy (VStr name) = false).
      { unfold falsy. simpl. apply String.eqb_neq in Hnonempty.
        now rewrite Hnonempty. }
      rewrite Hfalsy. unfold falsy. rewrite Hpass. cbn.
      rewrite readJson_eq, Hload, Hfile.
      now rewrite (find_named _ _ _ _ Hfirst). }
    rewrite Hrun. auto.
Qed.

(* --------------------------------------------------------------------- *)
(** ** Which file a request writes *)

Ltac open_handlers :=
  enter;
  unfold post_register, post_login, get_user, post_points, post_progress,
    get_progress, get_community, post_community;
  step.

Ltac run_all_branches :=
  repeat first
    [ rewrite readJson_eq
    | rewrite writeJson_written
    | progress cbn [fst snd]
    | match goal with
      | |- context [match ?x with _ => _ end] =>
          lazymatch x with
          | context [match _ with _ => _ end] => fail
          | _ => destruct x eqn:?
          end
      end ].

Lemma other_files_kept (e : env) (r : request) (w : world) (q : path) :
  target r <> Some q ->
  file_at q (snd (answer e r w)) = file_at q w.
Proof.
  intros Hq.
  destruct r as [ body | body | name | name body | name body | name | | body ];
    simpl in Hq; open_handlers; run_all_branches;
    rewrite ?file_at_written_other by congruence;
    rewrite ?file_at_after_read; reflexivity.
Qed.

(** X3. A request writes no file but its own: the users file for a
    registration or points, the progress file for a progress entry, the
    community file for a post; a login, a profile or a listing writes
    none, whatever the body and whatever the files hold. *)
Theorem requests_write_their_file_only
  (e : env) (r : request) (w : world) (q : path) :
  target r <> Some q ->
  file_at q (snd (answer e r w)) = file_at q w.
Proof. apply other_files_kept. Qed.

(* --------------------------------------------------------------------- *)
(** ** Registration, case by case *)

Lemma register_fresh (e : env) (fields : list (string * value)) (w : world)
  (us : list value) (name pw : string) :
  loaded usersFile w = VArr us ->
  prop "username" fields = VStr name -> name <> EmptyString ->
  prop "password" fields = VStr pw -> pw <> EmptyString ->
  none_named (VStr name) us ->
  answer e (Register (VObj fields)) w =
    (Reply 200 (message_body "User registered successfully."),
     after_write usersFile
       (VArr (us ++ [registered_record e fields
                       (hmac_sha256_hex (random_hex e) pw)]))
       (after_read usersFile w)).
Proof.
  intros Hload Hname Hn Hpw Hp Hnone.
  destruct (register_answers e fields w)
    as [ [Hstatus _] | (us0 & pw0 & Hload0 & _ & _ & Hpw0 & _ & Hrun) ];
    cbn zeta in *.
  - exfalso. apply Hstatus. clear Hstatus.
    enter. unfold post_register. step.
    rewrite Hname, Hpw, (falsy_string name Hn), (falsy_string pw Hp). cbn.
    rewrite readJson_eq, Hload. rewrite (find_none_named _ _ Hnone). cbn.
    now rewrite writeJson_eq by discriminate.
  - rewrite Hload in Hload0. injection Hload0 as <-.
    rewrite Hpw in Hpw0. injection Hpw0 as <-. exact Hrun.
Qed.

Lemma register_taken (e : env) (fields : list (string * value)) (w : world)
  (us : list value) (name : string) (i : nat) (u : value) :
  loaded usersFile w = VArr us ->
  prop "username" fields = VStr name -> name <> EmptyString ->
  truthy (prop "password" fields) = true ->
  first_named (VStr name) us i u ->
  answer e (Register (VObj fields)) w =
    (Reply 400 (error_body "Username already exists."), after_read usersFile w).
Proof.
  intros Hload Hname Hn Hp Hfirst.
  enter. unfold post_register. step.
  rewrite Hname, (falsy_string name Hn). unfold falsy at 1. rewrite Hp. cbn.
  rewrite readJson_eq, Hload. rewrite (find_named _ _ _ _ Hfirst). cbn.
  rewrite (named_is_truthy (VStr name) u); [ reflexivity | apply Hfirst | ].
  unfold falsy in *. simpl. apply String.eqb_neq in Hn. now rewrite Hn.
Qed.

(** X4. A registration with a username and a password, both non-empty strings,
    against a users file of user records, is answered 200 exactly when no
    record has that username (compared as is, case included); it is
    answered 400 [Username already exists.] otherwise. *)
Theorem register_succeeds_iff_fresh
  (e : env) (fields : list (string * value)) (w : world)
  (us : list value) (name pw : string) :
  loaded usersFile w = VArr us ->
  Forall is_user us ->
  prop "username" fields = VStr name -> name <> EmptyString ->
  prop "password" fields = VStr pw -> pw <> EmptyString ->
  let r := fst (answer e (Register (VObj fields)) w) in
  (status_of r = 200 <-> ~ In (VStr name) (map username_of us))
  /\ (~ In (VStr name) (map username_of us) ->
      r = Reply 200 (message_body "User registered successfully."))
  /\ (In (VStr name) (map username_of us) ->
      r = Reply 400 (error_body "Username already exists.")).
Proof.
  intros Hload Husers Hname Hn Hpw Hp r.
  assert (Hfresh : ~ In (VStr name) (map username_of us) ->
                   r = Reply 200 (message_body "User registered successfully.")).
  { intros Hnot. unfold r.
    now rewrite (register_fresh e fields w us name pw Hload Hname Hn Hpw Hp
                   (none_named_users name us Husers Hnot)). }
  assert (Htaken : In (VStr name) (map username_of us) ->
                   r = Reply 400 (error_body "Username already exists.")).
  { intros Hin. unfold r.
    destruct (first_named_users name us Husers Hin) as (i & ps & Hfirst).
    rewrite (register_taken e fields w us name i (VObj ps) Hload Hname Hn);
      [ reflexivity | | exact Hfirst ].
    rewrite Hpw. simpl. apply String.eqb_neq in Hp. now rewrite Hp. }
  split; [ split | split; assumption ].
  - intros Hstatus Hin. rewrite (Htaken Hin) in Hstatus. discriminate.
  - intros Hnot. now rewrite (Hfresh Hnot).
Qed.

(** X5. What a successful registration stores: the records already there, in
    JSON form, followed by one new record holding the username, the HMAC of
    the password under the fresh salt, that salt, 0 points and each profile
    field as given or, when missing or falsy, the empty string; the record
    has no [password] property. *)
Theorem registration_stores_hashed_record
  (e : env) (fields : list (string * value)) (w : world)
  (us : list value) (name pw : string) :
  loaded usersFile w = VArr us ->
  prop "username" fields = VStr name -> name <> EmptyString ->
  prop "password" fields = VStr pw -> pw <> EmptyString ->
  none_named (VStr name) us ->
  write_ok w usersFile = true ->
  exists rec,
    loaded usersFile (snd (answer e (Register (VObj fields)) w))
      = VArr (map json_slot us ++ [VObj rec])
    /\ lookup "username" rec = Some (VStr name)
    /\ lookup "passwordHash" rec
       = Some (VStr (hmac_sha256_hex (random_hex e) pw))
    /\ lookup "salt" rec = Some (VStr (random_hex e))
    /\ lookup "points" rec = Some (VNum (num_of_Z 0))
    /\ has_key "password" (VObj rec) = false
    /\ forall k, In k profile_keys ->
         lookup k rec
           = Some (json_image (or_else (prop k fields) (VStr EmptyString))).
Proof.
  intros Hload Hname Hn Hpw Hp Hnone Hok.
  rewrite (register_fresh e fields w us name pw Hload Hname Hn Hpw Hp Hnone).
  cbn [snd].
  destruct (registered_record_all_props e fields
              (hmac_sha256_hex (random_hex e) pw))
    as (rec & -> & Hr_name & Hr_hash & Hr_salt & Hr_points & Hr_pass & Hr_profile).
  rewrite Hname in Hr_name.
  exists (json_props rec).
  split; [ | split; [ | split; [ | split; [ | split; [ | split ] ] ] ] ].
  - rewrite loaded_after_write by (now rewrite write_ok_after_read).
    now rewrite json_image_array, map_app.
  - apply (lookup_json_props _ _ _ Hr_name). discriminate.
  - apply (lookup_json_props _ _ _ Hr_hash). discriminate.
  - apply (lookup_json_props _ _ _ Hr_salt). discriminate.
  - apply (lookup_json_props _ _ _ Hr_points). discriminate.
  - now apply has_key_json_props.
  - intros k Hk. apply (lookup_json_props _ _ _ (Hr_profile k Hk)).
    apply or_else_defined. discriminate.
Qed.

(** X6. A password that is not a string is never registered: whatever else the
    body holds, the answer is not a 200 and no file changes; and when the
    request gets as far as the hash (username and password truthy, no
    record of that name), [update] throws and Express answers 500. *)
Theorem register_rejects_non_string_password
  (e : env) (fields : list (string * value)) (w : world) :
  typeof (prop "password" fields) <> "string" ->
  (status_of (fst (answer e (Register (VObj fields)) w)) <> 200
   /\ forall q, file_at q (snd (answer e (Register (VObj fields)) w))
                = file_at q w)
  /\ (forall us,
        truthy (prop "username" fields) = true ->
        truthy (prop "password" fields) = true ->
        loaded usersFile w = VArr us ->
        none_named (prop "username" fields) us ->
        fst (answer e (Register (VObj fields)) w)
          = Uncaught (TypeError "The data argument must be of type string")).
Proof.
  intros Htype. split.
  - destruct (register_answers e fields w)
      as [ Hfail | (us & pw & _ & _ & _ & Hpw & _) ]; cbn zeta in *.
    + exact Hfail.
    + rewrite Hpw in Htype. now elim Htype.
  - intros us Hu Hp Hload Hnone.
    enter. unfold post_register. step.
    unfold falsy. rewrite Hu, Hp. cbn.
    rewrite readJson_eq, Hload. rewrite (find_none_named _ _ Hnone). cbn.
    unfold derive_credential, hmac_hex.
    destruct (prop "password" fields); try reflexivity.
    now elim Htype.
Qed.

(** X7. A failed write is silent: when the users file cannot be written, a
    fresh registration is still answered 200, one line goes to the
    console, no file changes, and a login with the credentials just
    registered is answered 400 [Invalid credentials.]. *)
Theorem registration_lost_on_write_failure
  (e e' : env) (fields : list (string * value)) (w : world)
  (us : list value) (name pw : string) :
  loaded usersFile w = VArr us ->
  prop "username" fields = VStr name -> name <> EmptyString ->
  prop "password" fields = VStr pw -> pw <> EmptyString ->
  none_named (VStr name) us ->
  write_ok w usersFile = false ->
  let r := answer e (Register (VObj fields)) w in
  fst r = Reply 200 (message_body "User registered successfully.")
  /\ (forall q, file_at q (snd r) = file_at q w)
  /\ console (snd r)
     = (console (after_read usersFile w) ++ ["Error writing data/users.json"])%list
  /\ fst (answer e' (Login (VObj fields)) (snd r))
     = Reply 400 (error_body "Invalid credentials.").
Proof.
  intros Hload Hname Hn Hpw Hp Hnone Hok r. unfold r.
  rewrite (register_fresh e fields w us name pw Hload Hname Hn Hpw Hp Hnone).
  cbn [fst snd]. unfold after_write.
  rewrite write_ok_after_read, Hok.
  split; [ reflexivity | split; [ | split; [ reflexivity | ] ] ].
  - intros q. rewrite file_at_log_line. apply file_at_after_read.
  - rewrite (login_none e' fields _ us); [ reflexivity | | now rewrite Hname ].
    unfold loaded. rewrite file_at_log_line, file_at_after_read. exact Hload.
Qed.

(** X8. A users file that cannot be read or parsed counts as empty, so the
    next registration replaces it: the answer is 200, the read failure is
    on the console, and the file now holds the new record alone. *)
Theorem corrupt_users_file_is_replaced
  (e : env) (fields : list (string * value)) (w : world) (name pw : string) :
  (file_at usersFile w = Unreadable \/
   exists raw, file_at usersFile w = Stored (Malformed raw)) ->
  prop "username" fields = VStr name -> name <> EmptyString ->
  prop "password" fields = VStr pw -> pw <> EmptyString ->
  write_ok w usersFile = true ->
  let r := answer e (Register (VObj fields)) w in
  fst r = Reply 200 (message_body "User registered successfully.")
  /\ file_at usersFile (snd r)
     = Stored (Json (VArr [json_slot (registered_record e fields
                                        (hmac_sha256_hex (random_hex e) pw))]))
  /\ console (snd r) = (console w ++ ["Error reading data/users.json"])%list.
Proof.
  intros Hfile Hname Hn Hpw Hp Hok r. unfold r.
  assert (Hload : loaded usersFile w = VArr []).
  { unfold loaded. destruct Hfile as [ -> | (raw & ->) ]; reflexivity. }
  assert (Hread : after_read usersFile w
                  = log_line "Error reading data/users.json" w).
  { unfold after_read. destruct Hfile as [ -> | (raw & ->) ]; reflexivity. }
  rewrite (register_fresh e fields w [] name pw Hload Hname Hn Hpw Hp)
    by constructor.
  cbn [fst snd]. unfold after_write.
  rewrite write_ok_after_read, Hok, Hread.
  split; [ reflexivity | split ].
  - rewrite file_at_put_same, json_image_array. cbn [app map]. reflexivity.
  - reflexivity.
Qed.

(* --------------------------------------------------------------------- *)
(** ** Login and profile, case by case *)

(** X9. With a password that is not a string (missing, a number), login tells
    a registered username from an unknown one: for an unknown username the
    answer is the generic 400, but once a record of that name is found,
    [createHmac] or [update] throws and Express answers 500. *)
Theorem login_without_string_password
  (e : env) (fields : list (string * value)) (w : world) (us : list value) :
  loaded usersFile w = VArr us ->
  typeof (prop "password" fields) <> "string" ->
  (none_named (prop "username" fields) us ->
   fst (answer e (Login (VObj fields)) w)
     = Reply 400 (error_body "Invalid credentials."))
  /\ (forall i ps,
        first_named (prop "username" fields) us i (VObj ps) ->
        exists err, fst (answer e (Login (VObj fields)) w) = Uncaught err).
Proof.
  intros Hload Htype. split.
  - intros Hnone. now rewrite (login_none e fields w us Hload Hnone).
  - intros i ps Hfirst.
    rewrite (login_found e fields ps w us i Hload Hfirst). cbn [fst].
    unfold verify_credential, hmac_hex.
    destruct (prop "salt" ps); cbn [bind]; eauto.
    destruct (prop "password" fields); cbn [bind]; eauto.
    now elim Htype.
Qed.

Lemma get_user_found (e : env) (name : string) (w : world) (us : list value)
  (i : nat) (ps : list (string * value)) :
  loaded usersFile w = VArr us ->
  first_named (VStr name) us i (VObj ps) ->
  answer e (GetUser name) w =
    (Reply 200 (VObj (omit ["passwordHash"; "salt"] ps)), after_read usersFile w).
Proof.
  intros Hload Hfirst. enter. unfold get_user. step.
  rewrite readJson_eq, Hload. now rewrite (find_named _ _ _ _ Hfirst).
Qed.

Lemma get_user_unknown (e : env) (name : string) (w : world) (us : list value) :
  loaded usersFile w = VArr us ->
  none_named (VStr name) us ->
  answer e (GetUser name) w =
    (Reply 404 (error_body "User not found."), after_read usersFile w).
Proof.
  intros Hload Hnone. enter. unfold get_user. step.
  rewrite readJson_eq, Hload. now rewrite (find_none_named _ _ Hnone).
Qed.

(** X10. Against a users file of user records, the profile endpoint answers 200
    exactly for the usernames that have a record, with the profile of the
    first record of that name, and 404 [User not found.] for every other
    name; an absent users file knows no user. *)
Theorem profile_found_iff_registered
  (e : env) (name : string) (w : world) (us : list value) :
  loaded usersFile w = VArr us ->
  Forall is_user us ->
  let r := fst (answer e (GetUser name) w) in
  (status_of r = 200 <-> In (VStr name) (map username_of us))
  /\ (~ In (VStr name) (map username_of us) ->
      r = Reply 404 (error_body "User not found."))
  /\ (In (VStr name) (map username_of us) ->
      exists i ps, first_named (VStr name) us i (VObj ps) /\
                   r = Reply 200 (VObj (omit ["passwordHash"; "salt"] ps)))
  /\ (file_at usersFile w = Missing ->
      r = Reply 404 (error_body "User not found.")).
Proof.
  intros Hload Husers r.
  assert (Hunknown : ~ In (VStr name) (map username_of us) ->
                     r = Reply 404 (error_body "User not found.")).
  { intros Hnot. unfold r.
    now rewrite (get_user_unknown e name w us Hload
                   (none_named_users name us Husers Hnot)). }
  assert (Hknown : In (VStr name) (map username_of us) ->
            exists i ps, first_named (VStr name) us i (VObj ps) /\
                         r = Reply 200 (VObj (omit ["passwordHash"; "salt"] ps))).
  { intros Hin.
    destruct (first_named_users name us Husers Hin) as (i & ps & Hfirst).
    exists i, ps. split; [ exact Hfirst | ]. unfold r.
    now rewrite (get_user_found e name w us i ps Hload Hfirst). }
  split; [ split | split; [ exact Hunknown | split; [ exact Hknown | ] ] ].
  - intros Hstatus.
    destruct (find_users_total name us Husers) as [ Hnone | (i & ps & Hfirst) ].
    + unfold r in Hstatus.
      rewrite (get_user_unknown e name w us Hload Hnone) in Hstatus.
      discriminate.
    + destruct Hfirst as (Hnth & Hname & _).
      apply has_username_username_of in Hname. apply strict_eq_string in Hname.
      rewrite <- Hname. apply in_map. eapply nth_error_In; eassumption.
  - intros Hin. destruct (Hknown Hin) as (i & ps & _ & ->). reflexivity.
  - intros Hmissing. apply Hunknown.
    unfold loaded in Hload. rewrite Hmissing in Hload.
    injection Hload as <-. simpl. tauto.
Qed.

(* --------------------------------------------------------------------- *)
(** ** Points, seen from the other endpoints *)

(** X11. Points that were added show in the profile: after a successful
    addition the profile endpoint answers 200 with the new total, in JSON
    form, as [points], and still without [passwordHash] and [salt]. *)
Theorem points_show_in_profile
  (e e' : env) (name : string) (fields : list (string * value)) (w : world)
  (us : list value) (i : nat) (ps : list (string * value)) (p d : number) :
  prop "points" fields = VNum d ->
  loaded usersFile w = VArr us ->
  Forall is_user us ->
  first_named (VStr name) us i (VObj ps) ->
  holds_points (prop "points" ps) p ->
  write_ok w usersFile = true ->
  exists profile,
    fst (answer e' (GetUser name) (snd (answer e (AddPoints name (VObj fields)) w)))
      = Reply 200 (VObj profile)
    /\ prop "points" profile = json_image (VNum (num_add p d))
    /\ lookup "passwordHash" profile = None
    /\ lookup "salt" profile = None.
Proof.
  intros Hd Hload Husers Hfirst Hpoints Hok.
  rewrite (points_added_number e name fields ps w d p us i Hd Hload Hfirst Hpoints).
  cbn [snd].
  destruct (points_then_first name i (VNum (num_add p d)) ps us w Hok) as
    (us' & ps' & Hload' & Hfirst' & Hpoints' & _); auto; try discriminate.
  exists (omit ["passwordHash"; "salt"] ps').
  rewrite (get_user_found e' name _ us' i ps' Hload' Hfirst').
  split; [ reflexivity | split; [ | split ] ].
  - rewrite prop_omit_other by reflexivity. exact Hpoints'.
  - now rewrite lookup_omit.
  - now rewrite lookup_omit.
Qed.

(** X12. Adding points changes one property of one record: in a users file as
    the server wrote it, every other record, and every other property of
    the record found, is afterwards what it was, and no record is added
    or removed. *)
Theorem points_change_nothing_else
  (e : env) (name : string) (fields : list (string * value)) (w : world)
  (us : list value) (i : nat) (ps : list (string * value)) (d : number) :
  prop "points" fields = VNum d ->
  loaded usersFile w = VArr us ->
  json_stable (VArr us) ->
  first_named (VStr name) us i (VObj ps) ->
  write_ok w usersFile = true ->
  exists us' ps',
    loaded usersFile (snd (answer e (AddPoints name (VObj fields)) w)) = VArr us'
    /\ length us' = length us
    /\ nth_error us' i = Some (VObj ps')
    /\ (forall j, j <> i -> nth_error us' j = nth_error us j)
    /\ (forall k, k <> "points" -> lookup k ps' = lookup k ps).
Proof.
  intros Hd Hload Hstable Hfirst Hok.
  destruct (add Number_toString
              (or_else (prop "points" ps) (VNum (num_of_Z 0))) (VNum d))
    as [ total | err ] eqn:Htotal.
  2: { rewrite (points_thrown e name fields ps w d us i err Hd Hload Hfirst Htotal).
       cbn [snd]. rewrite loaded_after_read. destruct Hfirst as (Hnth & _ & _).
       exists us, ps. auto. }
  rewrite (points_added e name fields ps w d us i total Hd Hload Hfirst Htotal).
  cbn [snd].
  destruct (points_stored i total ps us w Hok (add_defined _ _ _ _ Htotal))
    as (Hload' & _ & Hother).
  rewrite (stable_array us Hstable) in Hload'.
  destruct Hfirst as (Hnth & _ & _).
  rewrite (stable_element us i ps Hstable Hnth) in Hother.
  exists (replace_at i (VObj (json_props (assign "points" total ps))) us),
         (json_props (assign "points" total ps)).
  split; [ exact Hload' | split; [ apply replace_at_length | split; [ | split ] ] ].
  - eapply replace_at_same. eassumption.
  - intros j Hj. now apply replace_at_other.
  - exact Hother.
Qed.

(* --------------------------------------------------------------------- *)
(** ** Community posts and progress entries *)

Lemma post_appended (e : env) (fields : list (string * value)) (w : world)
  (posts : list value) :
  truthy (prop "username" fields) = true ->
  truthy (prop "description" fields) = true ->
  loaded communityFile w = VArr posts ->
  answer e (CreatePost (VObj fields)) w =
    (Reply 200 (message_body "Post created successfully."),
     after_write communityFile
       (VArr (posts ++
                [VObj [ ("username", prop "username" fields);
                        ("title", or_else (prop "title" fields) (VStr EmptyString));
                        ("description", prop "description" fields);
                        ("image", or_else (prop "image" fields) (VStr EmptyString));
                        ("duration",
                         or_else (prop "duration" fields) (VStr EmptyString));
                        ("activityType",
                         or_else (prop "activityType" fields) (VStr EmptyString));
                        ("timestamp", VStr (now_iso e)) ]]))
       (after_read communityFile w)).
Proof.
  intros Hu Hd Hload. enter. unfold post_community. step.
  unfold falsy. rewrite Hu, Hd. cbn.
  rewrite readJson_eq, Hload. cbn. now rewrite writeJson_eq by discriminate.
Qed.

Lemma stored_post_eq (e : env) (fields : list (string * value)) :
  truthy (prop "username" fields) = true ->
  truthy (prop "description" fields) = true ->
  json_slot (VObj [ ("username", prop "username" fields);
                    ("title", or_else (prop "title" fields) (VStr EmptyString));
                    ("description", prop "description" fields);
                    ("image", or_else (prop "image" fields) (VStr EmptyString));
                    ("duration",
                     or_else (prop "duration" fields) (VStr EmptyString));
                    ("activityType",
                     or_else (prop "activityType" fields) (VStr EmptyString));
                    ("timestamp", VStr (now_iso e)) ])
  = stored_post e fields.
Proof.
  intros Hu Hd. rewrite json_slot_object. unfold stored_post. f_equal.
  repeat (rewrite json_props_cons_defined
            by first [ now apply truthy_defined
                     | apply or_else_defined; discriminate
                     | discriminate ]).
  reflexivity.
Qed.

(** X13. A post with a username and a description is appended at the end of
    the community file, after the posts already there, with its missing
    optional fields as empty strings and the clock reading of the server;
    the listing that follows returns all of them, the new post last. *)
Theorem post_then_list
  (e e' : env) (fields : list (string * value)) (w : world) (posts : list value) :
  truthy (prop "username" fields) = true ->
  truthy (prop "description" fields) = true ->
  loaded communityFile w = VArr posts ->
  write_ok w communityFile = true ->
  let r := answer e (CreatePost (VObj fields)) w in
  fst r = Reply 200 (message_body "Post created successfully.")
  /\ fst (answer e' ListPosts (snd r))
     = Reply 200 (VArr (map json_slot posts ++ [stored_post e fields]))
  /\ fst (answer e' ListPosts w) = Reply 200 (VArr posts).
Proof.
  intros Hu Hd Hload Hok r. unfold r.
  rewrite (post_appended e fields w posts Hu Hd Hload). cbn [fst snd].
  split; [ reflexivity | split ].
  - enter. unfold get_community. step. rewrite readJson_eq. cbn [fst].
    rewrite loaded_after_write by (now rewrite write_ok_after_read).
    now rewrite json_image_array, map_app, <- (stored_post_eq e fields Hu Hd).
  - enter. unfold get_community. step. rewrite readJson_eq. cbn [fst].
    now rewrite Hload.
Qed.

(** X14. Logging progress for one user changes no other user's listing: in a
    progress file as the server wrote it, the listing of another username
    is what it was, and the listing of this one grows by the new entry, at
    its end. *)
Theorem progress_of_others_unchanged
  (e e' : env) (name other : string) (fields : list (string * value))
  (w : world) (entries : list value) :
  name <> other ->
  eq_null (prop "steps" fields) && eq_null (prop "minutes" fields) = false ->
  loaded progressFile w = VArr entries ->
  json_stable (VArr entries) ->
  Forall (fun p => eq_null p = false) entries ->
  write_ok w progressFile = true ->
  let w' := snd (answer e (LogProgress name (VObj fields)) w) in
  fst (answer e' (ListProgress other) w') = fst (answer e' (ListProgress other) w)
  /\ fst (answer e' (ListProgress name) w')
     = Reply 200 (VArr (filter (entry_of name) entries ++ [logged_entry e name fields])).
Proof.
  intros Hne Hgiven Hload Hstable Hentries Hok w'.
  assert (Hload' : loaded progressFile w'
                   = VArr (entries ++ [logged_entry e name fields])).
  { unfold w'. rewrite (progress_file_after e name fields w entries Hgiven Hload Hok).
    now rewrite (stable_array entries Hstable). }
  assert (Hentries' : Forall (fun p => eq_null p = false)
                        (entries ++ [logged_entry e name fields])).
  { apply Forall_app. split; [ exact Hentries | repeat constructor ]. }
  assert (Hmine : entry_of name (logged_entry e name fields) = true).
  { change (entry_of name (logged_entry e name fields)) with (String.eqb name name).
    apply String.eqb_refl. }
  assert (Hother : entry_of other (logged_entry e name fields) = false).
  { change (entry_of other (logged_entry e name fields)) with (String.eqb name other).
    now apply String.eqb_neq. }
  rewrite !(progress_listed e' _ w' _ Hload' Hentries').
  rewrite (progress_listed e' other w entries Hload Hentries).
  cbn [fst]. rewrite !filter_app. cbn [filter].
  rewrite Hmine, Hother. split; [ now rewrite app_nil_r | reflexivity ].
Qed.

(* --------------------------------------------------------------------- *)
(** ** Whole runs *)

Lemma request_keeps_unique (e : env) (r : request) (w : world) :
  username_typed r = true ->
  unique_usernames w ->
  unique_usernames (snd (answer e r w)).
Proof.
  intros Htyped Hinv.
  pose proof (users_file_untouched e r w) as Hkept.
  destruct r as [ body | body | name | name body | name body | name | | body ];
    try (now apply unique_usernames_same_file with (w := w)).
  - now apply register_keeps_unique.
  - now apply points_keep_unique.
Qed.

(** X15. Starting with no users file, or with one of user records with
    distinct usernames, and serving any sequence of requests whose
    registrations name strings, the users file holds user records with
    pairwise distinct usernames at the end. *)
Theorem usernames_unique_after_any_run
  (reqs : list (env * request)) (w : world) :
  file_at usersFile w = Missing \/ unique_usernames w ->
  Forall (fun er => username_typed (snd er) = true) reqs ->
  unique_usernames (serve_all Number_toString hmac_sha256_hex reqs w).
Proof.
  intros Hstart Htyped.
  assert (Hinv : unique_usernames w).
  { destruct Hstart as [ Hmissing | Hinv ]; [ | exact Hinv ].
    exists []. unfold loaded. rewrite Hmissing.
    repeat split; constructor. }
  clear Hstart. revert w Hinv.
  induction Htyped as [ | [e r] reqs Hr _ IH ]; intros w Hinv.
  - exact Hinv.
  - unfold serve_all. cbn [fold_left fst snd].
    apply IH. now apply request_keeps_unique.
Qed.

(** X16. Whatever the request, each file is afterwards either what it was or a
    JSON document that serialisation leaves unchanged: the server never
    leaves a file it cannot parse, nor one that reads back differently
    from how it was written. *)
Theorem files_stay_parsable (e : env) (r : request) (w : world) (q : path) :
  file_at q (snd (answer e r w)) = file_at q w \/
  exists doc,
    file_at q (snd (answer e r w)) = Stored (Json doc) /\ json_stable doc.
Proof.
  destruct r as [ body | body | name | name body | name body | name | | body ];
    open_handlers; run_all_branches;
    try (left; rewrite ?file_at_after_read; reflexivity);
    match goal with
    | |- context [written ?p ?d ?w0] =>
        destruct (file_at_written_cases p q d w0) as [ Hsame | Hnew ];
        [ left; rewrite Hsame; apply file_at_after_read | right; exact Hnew ]
    end.
Qed.

(* --------------------------------------------------------------------- *)
(** ** What stays *)

(** X17. Adding points locks nobody out: when the password verified against
    the record before, a login after the addition is answered 200, with
    the new total as [points]. *)
Theorem login_still_works_after_points
  (e e' : env) (name : string) (fields login : list (string * value))
  (w : world) (us : list value) (i : nat) (ps : list (string * value))
  (p d : number) :
  prop "points" fields = VNum d ->
  loaded usersFile w = VArr us ->
  Forall is_user us ->
  first_named (VStr name) us i (VObj ps) ->
  holds_points (prop "points" ps) p ->
  write_ok w usersFile = true ->
  prop "username" login = VStr name ->
  verify_credential hmac_sha256_hex (prop "password" login)
    (prop "passwordHash" ps) (prop "salt" ps) = Ok true ->
  exists profile,
    fst (answer e' (Login (VObj login))
           (snd (answer e (AddPoints name (VObj fields)) w)))
      = Reply 200 (VObj profile)
    /\ prop "points" profile = json_image (VNum (num_add p d)).
Proof.
  intros Hd Hload Husers Hfirst Hpoints Hok Hname Hverify.
  rewrite (points_added_number e name fields ps w d p us i Hd Hload Hfirst Hpoints).
  cbn [snd].
  destruct (points_stored i (VNum (num_add p d)) ps us w Hok)
    as (Hload' & Hpoints' & Hother); [ discriminate | ].
  destruct (points_then_first name i (VNum (num_add p d)) ps us w Hok) as
    (us' & ps' & Hload2 & Hfirst' & _ & _); auto; try discriminate.
  rewrite Hload' in Hload2. injection Hload2 as <-.
  assert (Hps' : ps' = json_props (assign "points" (VNum (num_add p d)) ps)).
  { destruct Hfirst' as (Hnth' & _ & _). destruct Hfirst as (Hnth & _ & _).
    rewrite (replace_at_same i _ (json_slot (VObj ps))) in Hnth'
      by (rewrite nth_error_map, Hnth; reflexivity).
    congruence. }
  subst ps'.
  set (ps' := json_props (assign "points" (VNum (num_add p d)) ps)) in *.
  (* the salt and the hash of the record are strings, and are kept *)
  unfold verify_credential, hmac_hex in Hverify.
  destruct (prop "salt" ps) as [ | | | | salt | | ] eqn:Hsalt; try discriminate.
  destruct (prop "password" login) as [ | | | | pw | | ] eqn:Hpw; try discriminate.
  cbn [bind] in Hverify. injection Hverify as Hhash.
  destruct (prop "passwordHash" ps) as [ | | | | hash | | ] eqn:Hhashed;
    try discriminate.
  assert (Hkept : forall k s, prop k ps = VStr s -> k <> "points" ->
                              prop k ps' = VStr s).
  { intros k s Hk Hne. unfold prop in *. rewrite (Hother k Hne).
    destruct (lookup k ps) as [ x | ] eqn:Hx; [ | discriminate ]. subst x.
    now rewrite (lookup_json_props _ _ _ Hx) by discriminate. }
  exists (omit ["passwordHash"; "salt"] ps').
  rewrite (login_found e' login ps' _ _ i Hload');
    [ | rewrite Hname; exact Hfirst' ].
  rewrite (Hkept "salt" salt Hsalt) by discriminate.
  rewrite (Hkept "passwordHash" hash Hhashed) by discriminate.
  rewrite Hpw. unfold verify_credential, hmac_hex. cbn [bind strict_eq].
  rewrite Hhash. cbn [fst].
  split; [ reflexivity | ].
  rewrite prop_omit_other by reflexivity. exact Hpoints'.
Qed.

Lemma post_rejected (e : env) (fields : list (string * value)) (w : world) :
  falsy (prop "username" fields) || falsy (prop "description" fields) = true ->
  answer e (CreatePost (VObj fields)) w =
    (Reply 400 (error_body "Post must include a username and description."), w).
Proof.
  intros Hmissing. enter. unfold post_community. step. now rewrite Hmissing.
Qed.

Lemma log_kept (p : path) (w w' : world) :
  file_at p w' = file_at p w ->
  stable_list p w ->
  stable_list p w' /\ exists more, stored_list p w' = (stored_list p w ++ more)%list.
Proof.
  intros Hsame Hstable. split.
  - now apply stable_list_same_file with (w := w).
  - exists []. now rewrite (stored_list_same_file _ _ _ Hsame), app_nil_r.
Qed.

(** One request on a log file (progress or community): the stored list is
    a prefix of the list afterwards. *)
Lemma log_step (e : env) (r : request) (w : world) (p : path) :
  p <> usersFile ->
  stable_list p w ->
  stable_list p (snd (answer e r w))
  /\ exists more,
       stored_list p (snd (answer e r w)) = (stored_list p w ++ more)%list.
Proof.
  intros Hp Hstable.
  assert (Hother : target r <> Some p ->
    stable_list p (snd (answer e r w))
    /\ exists more,
         stored_list p (snd (answer e r w)) = (stored_list p w ++ more)%list).
  { intros Ht. apply log_kept; [ now apply other_files_kept | exact Hstable ]. }
  destruct r as [ body | body | name | name body | name body | name | | body ];
    try (apply Hother; simpl; congruence).
  - (* a progress entry *)
    destruct p; try (apply Hother; discriminate); try congruence.
    destruct body as [ | | b | n | s | l | fields ];
      try (apply log_kept; [ reflexivity | exact Hstable ]).
    destruct (eq_null (prop "steps" fields) && eq_null (prop "minutes" fields))
      eqn:Hgiven.
    + rewrite progress_rejected by exact Hgiven.
      apply log_kept; [ reflexivity | exact Hstable ].
    + destruct Hstable as (l & Hload & Hl).
      rewrite (progress_appended e name fields w l Hgiven Hload). cbn [snd].
      unfold stored_list at 2. rewrite Hload.
      now apply append_written.
  - (* a post *)
    destruct p; try (apply Hother; discriminate); try congruence.
    destruct body as [ | | b | n | s | l | fields ];
      try (apply log_kept; [ reflexivity | exact Hstable ]).
    destruct (falsy (prop "username" fields) || falsy (prop "description" fields))
      eqn:Hmissing.
    + rewrite post_rejected by exact Hmissing.
      apply log_kept; [ reflexivity | exact Hstable ].
    + apply orb_false_iff in Hmissing as [Hu Hd]. unfold falsy in Hu, Hd.
      apply negb_false_iff in Hu. apply negb_false_iff in Hd.
      destruct Hstable as (l & Hload & Hl).
      rewrite (post_appended e fields w l Hu Hd Hload). cbn [snd].
      unfold stored_list at 2. rewrite Hload.
      now apply append_written.
Qed.

(** X18. The progress log and the community posts only grow: from files as
    the server wrote them (or absent), after any sequence of requests
    every entry and every post that was stored is still there, unchanged
    and in place, followed by what was appended since. *)
Theorem logs_only_grow (reqs : list (env * request)) (w : world) (p : path) :
  p <> usersFile ->
  stable_list p w ->
  exists more,
    stored_list p (serve_all Number_toString hmac_sha256_hex reqs w)
      = (stored_list p w ++ more)%list.
Proof.
  intros Hp. revert w.
  induction reqs as [ | [e r] reqs IH ]; intros w Hstable.
  - exists []. now rewrite app_nil_r.
  - unfold serve_all. cbn [fold_left fst snd].
    destruct (log_step e r w p Hp Hstable) as (Hstable' & more1 & Hmore1).
    destruct (IH _ Hstable') as (more2 & Hmore2).
    exists (more1 ++ more2)%list.
    unfold serve_all in Hmore2. rewrite Hmore2, Hmore1. now rewrite app_assoc.
Qed.

Lemma names_kept (w w' : world) :
  file_at usersFile w' = file_at usersFile w ->
  exists more, user_names w' = (user_names w ++ more)%list.
Proof.
  intros Hsame. exists []. now rewrite (user_names_same_file _ _ Hsame), app_nil_r.
Qed.

Lemma names_written (data : value) (us us' : list value) (more : list value)
  (w : world) :
  loaded usersFile w = VArr us ->
  json_image data = VArr us' ->
  map username_of us' = (map username_of us ++ more)%list ->
  exists more',
    user_names (after_write usersFile data (after_read usersFile w))
      = (user_names w ++ more')%list.
Proof.
  intros Hload Hdata Hnames. unfold after_write.
  destruct (write_ok (after_read usersFile w) usersFile).
  - exists more. unfold user_names, loaded.
    rewrite file_at_put_same, Hdata, Hnames.
    fold (loaded usersFile w). now rewrite Hload.
  - apply names_kept. rewrite file_at_log_line. apply file_at_after_read.
Qed.

(** One request: the usernames stored are a prefix of those stored
    afterwards. *)
Lemma names_step (e : env) (r : request) (w : world) :
  username_typed r = true ->
  unique_usernames w ->
  exists more, user_names (snd (answer e r w)) = (user_names w ++ more)%list.
Proof.
  intros Htyped (us & Hload & Husers & _).
  pose proof (users_file_untouched e r w) as Hkept.
  destruct r as [ body | body | name | name body | name body | name | | body ];
    try (now apply names_kept).
  - (* a registration *)
    destruct body as [ | | b | n | s | l | fields ];
      try (apply names_kept; reflexivity).
    destruct (register_answers e fields w)
      as [ [_ Hfiles] | (us0 & pw & Hload0 & _ & _ & _ & _ & Hrun) ];
      cbn zeta in *.
    { apply names_kept. apply Hfiles. }
    rewrite Hload in Hload0. injection Hload0 as <-.
    rewrite Hrun. cbn [snd].
    destruct (users_json_slot us Husers) as [_ Hnames'].
    eapply names_written; [ exact Hload | apply json_image_array | ].
    rewrite map_app, map_app, Hnames'. reflexivity.
  - (* points *)
    destruct body as [ | | b | n | s | l | fields ];
      try (apply names_kept; reflexivity).
    destruct (prop "points" fields) as [ | | b | d | s | l | o ] eqn:Hd;
      try (rewrite points_rejected by (rewrite Hd; discriminate);
           apply names_kept; reflexivity).
    destruct (find_users_total name us Husers) as [ Hnone | (i & ps & Hfirst) ].
    + rewrite (points_unknown e name fields w d us Hd Hload Hnone). cbn [snd].
      apply names_kept. apply file_at_after_read.
    + destruct (add Number_toString
                  (or_else (prop "points" ps) (VNum (num_of_Z 0))) (VNum d))
        as [ total | err ] eqn:Htotal;
        [ | rewrite (points_thrown e name fields ps w d us i err Hd Hload Hfirst Htotal);
            cbn [snd]; apply names_kept; apply file_at_after_read ].
      rewrite (points_added e name fields ps w d us i total Hd Hload Hfirst Htotal).
      cbn [snd].
      destruct Hfirst as (Hnth & Hname & _).
      apply has_username_string_inv in Hname as (ps0 & Heq & Hname).
      injection Heq as <-.
      destruct (replace_at_users i (VObj ps) (VObj (assign "points" total ps)) us)
        as [Husers' Hnames']; auto.
      { exists (assign "points" total ps), name. split; [ reflexivity | ].
        now rewrite lookup_assign_other by discriminate. }
      { simpl. unfold prop. now rewrite lookup_assign_other by discriminate. }
      destruct (users_json_slot _ Husers') as [_ Hnames''].
      eapply names_written with (more := []);
        [ exact Hload | apply json_image_array | ].
      now rewrite Hnames'', Hnames', app_nil_r.
Qed.

(** X19. No request removes or renames a user: from a users file of user
    records with distinct usernames, after any sequence of requests whose
    registrations name strings, the usernames that were stored are still
    stored, in the same places, followed by those registered since. *)
Theorem users_are_never_removed (reqs : list (env * request)) (w : world) :
  unique_usernames w ->
  Forall (fun er => username_typed (snd er) = true) reqs ->
  exists more,
    user_names (serve_all Number_toString hmac_sha256_hex reqs w)
      = (user_names w ++ more)%list.
Proof.
  intros Hinv Htyped. revert w Hinv.
  induction Htyped as [ | [e r] reqs Hr _ IH ]; intros w Hinv.
  - exists []. now rewrite app_nil_r.
  - unfold serve_all. cbn [fold_left fst snd].
    cbn [snd] in Hr.
    destruct (names_step e r w Hr Hinv) as (more1 & Hmore1).
    destruct (IH _ (request_keeps_unique e r w Hr Hinv)) as (more2 & Hmore2).
    exists (more1 ++ more2)%list.
    unfold serve_all in Hmore2. rewrite Hmore2, Hmore1. now rewrite app_assoc.
Qed.

End Properties.

(* ===================================================================== *)
(** * The properties on the sample run *)
(* ===================================================================== *)

Lemma alice_is_first :
  first_named (VStr "alice") Sample.alice_records 0 (VObj Sample.alice_props).
Proof.
  repeat split; try reflexivity. intros j u' Hj. lia.
Defined.

Lemma alice_records_are_users : Forall is_user Sample.alice_records.
Proof.
  repeat constructor. exists Sample.alice_props, "alice". split; reflexivity.
Defined.

Lemma with_alice_unique : unique_usernames Sample.with_alice.
Proof.
  exists Sample.alice_records.
  split; [ reflexivity | split; [ exact alice_records_are_users | ] ].
  repeat constructor. simpl. tauto.
Defined.

Lemma credential_round_trip_witness :
  exists ps,
    fst (Sample.run (Login (VObj Sample.alice_fields))
           (snd (Sample.run (Register (VObj Sample.alice_fields)) Sample.empty_dir)))
      = Reply 200 (VObj (omit ["passwordHash"; "salt"] ps))
    /\ lookup "username" ps = Some (VStr "alice").
Proof.
  apply (proj2 (proj2 (credential_round_trip
           Sample.Number_toString Sample.hmac_sha256_hex Sample.e0 Sample.e0))
         Sample.alice_fields Sample.alice_fields Sample.empty_dir [] "alice"
         (message_body "User registered successfully."));
    solve [ reflexivity | constructor ].
Defined.

Lemma usernames_stay_unique_witness :
  unique_usernames Sample.with_alice
  /\ unique_usernames
       (snd (Sample.run (Register (Sample.credentials "bob" "s3cret")) Sample.with_alice))
  /\ Sample.run (Register (VObj Sample.alice_fields)) Sample.with_alice
       = (Reply 400 (error_body "Username already exists."), Sample.with_alice)
  /\ count_username "alice" Sample.with_alice = 1.
Proof.
  pose proof (usernames_stay_unique Sample.Number_toString Sample.hmac_sha256_hex
                Sample.e0 Sample.with_alice with_alice_unique) as [Hkeep Hdup].
  split; [ exact with_alice_unique | split ].
  - apply (Hkeep (Register (Sample.credentials "bob" "s3cret"))). reflexivity.
  - destruct (Hdup Sample.alice_fields "alice") as (Hrun & Hcount & _).
    + reflexivity.
    + discriminate.
    + reflexivity.
    + exists Sample.alice_records. split; [ reflexivity | simpl; tauto ].
    + split; [ exact Hrun | exact Hcount ].
Defined.

(** C2 as stated fails: the handler compares usernames with [===] and does
    not check their type.  A username that is an array is never equal to
    a stored one, so the same registration is answered 200 a second time,
    not 400, and the users file, whose usernames were distinct, then holds
    two records with the username [["a"]]. *)
Lemma array_username_registers_twice :
  Sample.run (Register (VObj Sample.array_fields)) Sample.empty_dir
    = (Reply 200 (message_body "User registered successfully."),
       Sample.with_array_user)
  /\ distinct_usernames Sample.with_array_user
  /\ Sample.run (Register (VObj Sample.array_fields)) Sample.with_array_user
     = (Reply 200 (message_body "User registered successfully."),
        Sample.with_two_array_users)
  /\ user_names Sample.with_two_array_users = [VArr [VStr "a"]; VArr [VStr "a"]]
  /\ ~ distinct_usernames Sample.with_two_array_users.
Proof.
  split; [ reflexivity | split; [ | split; [ reflexivity | split ] ] ].
  - eexists. split; [ reflexivity | ].
    repeat constructor. simpl. tauto.
  - reflexivity.
  - intros (us & Hload & Hnodup).
    vm_compute in Hload. injection Hload as <-.
    simpl in Hnodup. inversion Hnodup as [ | x l Hfresh _ ]; subst.
    apply Hfresh. left. reflexivity.
Qed.

Lemma success_payload_strips_credentials_witness :
  fst (Sample.run (Login (VObj Sample.alice_fields)) Sample.with_alice)
    = Reply 200 (VObj (omit ["passwordHash"; "salt"] Sample.alice_props))
  /\ exists us i ps,
       loaded usersFile Sample.with_alice = VArr us /\
       first_named (prop "username" Sample.alice_fields) us i (VObj ps) /\
       VObj (omit ["passwordHash"; "salt"] Sample.alice_props)
         = VObj (omit ["passwordHash"; "salt"] ps).
Proof.
  split; [ reflexivity | ].
  apply (proj1 (success_payload_strips_credentials
           Sample.Number_toString Sample.hmac_sha256_hex Sample.e0 Sample.with_alice)
         Sample.alice_fields).
  reflexivity.
Defined.

Lemma login_failures_are_generic_witness :
  loaded usersFile Sample.with_alice = VArr Sample.alice_records
  /\ Sample.run (Login (VObj Sample.alice_wrong_fields)) Sample.with_alice
       = (Reply 400 (error_body "Invalid credentials."),
          after_read usersFile Sample.with_alice)
  /\ Sample.run (Login (Sample.credentials "carol" "pw123")) Sample.with_alice
       = (Reply 400 (error_body "Invalid credentials."),
          after_read usersFile Sample.with_alice).
Proof.
  split; [ reflexivity | split ].
  - apply (proj1 (proj2 (login_failures_are_generic
             Sample.Number_toString Sample.hmac_sha256_hex Sample.e0
             Sample.alice_wrong_fields Sample.with_alice Sample.alice_records
             eq_refl)) 0 Sample.alice_props).
    + exact alice_is_first.
    + reflexivity.
  - apply (proj1 (login_failures_are_generic
             Sample.Number_toString Sample.hmac_sha256_hex Sample.e0
             [("username", VStr "carol"); ("password", VStr "pw123")]
             Sample.with_alice Sample.alice_records eq_refl)).
    repeat constructor.
Defined.

Lemma add_points_accumulates_witness :
  fst (Sample.run (AddPoints "alice" (VObj Sample.five_points)) Sample.with_alice)
    = Reply 200 (VObj [("points", VNum (num_add (S754_zero false) (num_of_Z 5)))]).
Proof.
  apply (proj1 (proj2 (proj2 (add_points_accumulates
           Sample.Number_toString Sample.hmac_sha256_hex Sample.e0 "alice"
           Sample.five_points Sample.with_alice)))
         (num_of_Z 5) Sample.alice_records 0 Sample.alice_props (S754_zero false)).
  - reflexivity.
  - reflexivity.
  - exact alice_is_first.
  - apply points_number; [ reflexivity | discriminate ].
  - reflexivity.
Defined.

Lemma progress_log_and_list_witness :
  fst (Sample.run (LogProgress "bob" (VObj Sample.zero_steps)) Sample.empty_dir)
    = Reply 200 (message_body "Progress logged successfully.").
Proof.
  apply (proj1 (proj2 (proj2 (progress_log_and_list
           Sample.Number_toString Sample.hmac_sha256_hex Sample.e0 "bob"
           Sample.empty_dir)))
         Sample.zero_steps []); reflexivity.
Defined.

Lemma post_community_rejects_incomplete_witness :
  falsy (prop "username" Sample.post_fields)
    || falsy (prop "description" Sample.post_fields) = true
  /\ Sample.run (CreatePost (VObj Sample.post_fields)) Sample.with_alice
       = (Reply 400 (error_body "Post must include a username and description."),
          Sample.with_alice).
Proof.
  split; [ reflexivity | ].
  apply (post_community_rejects_incomplete
           Sample.Number_toString Sample.hmac_sha256_hex Sample.e0
           Sample.post_fields Sample.with_alice).
  reflexivity.
Defined.

Lemma zero_steps_stored_as_null_witness :
  prop "steps" Sample.zero_steps = VNum (S754_zero false)
  /\ loaded progressFile
       (snd (Sample.run (LogProgress "bob" (VObj Sample.zero_steps)) Sample.empty_dir))
     = VArr [VObj [ ("username", VStr "bob");
                    ("steps", VNull);
                    ("minutes", VNull);
                    ("timestamp", VStr (now_iso Sample.e0)) ]].
Proof.
  split; [ reflexivity | ].
  apply (zero_steps_stored_as_null
           Sample.Number_toString Sample.hmac_sha256_hex Sample.e0 "bob"
           Sample.zero_steps Sample.empty_dir [] false);
    reflexivity.
Defined.

Lemma nonfinite_points_reset_the_total_witness :
  num_is_finite S754_nan = false
  /\ stored_points "alice"
       (snd (Sample.run (AddPoints "alice" (VObj Sample.nan_points)) Sample.with_alice))
     = VNull.
Proof.
  split; [ reflexivity | ].
  apply (nonfinite_points_reset_the_total
           Sample.Number_toString Sample.hmac_sha256_hex Sample.e0 Sample.e0
           "alice" Sample.nan_points Sample.with_alice Sample.alice_records 0
           Sample.alice_props (S754_zero false) S754_nan).
  - reflexivity.
  - reflexivity.
  - reflexivity.
  - exact alice_records_are_users.
  - exact alice_is_first.
  - apply points_number; [ reflexivity | discriminate ].
  - reflexivity.
Defined.

(** C10 as stated fails: after [NaN] points were added to alice, her stored
    points are [null], not [NaN], and adding 5 is answered 5, not [NaN]. *)
Lemma nan_is_not_absorbing :
  fst (Sample.run (AddPoints "alice" (VObj Sample.nan_points)) Sample.with_alice)
    = Reply 200 (VObj [("points", VNum S754_nan)])
  /\ snd (Sample.run (AddPoints "alice" (VObj Sample.nan_points)) Sample.with_alice)
     = Sample.after_nan
  /\ stored_points "alice" Sample.after_nan <> VNum S754_nan
  /\ ~ (forall d : number,
          payload (fst (Sample.run (AddPoints "alice" (Sample.points_body d))
                          Sample.after_nan))
            = VObj [("points", VNum S754_nan)]).
Proof.
  split; [ reflexivity | split; [ reflexivity | split ] ].
  - discriminate.
  - intros Hall. specialize (Hall (num_of_Z 5)). discriminate Hall.
Qed.

(* ===================================================================== *)
(** * The further properties on the sample run *)
(* ===================================================================== *)

Lemma alice_records_stable : json_stable (VArr Sample.alice_records).
Proof. reflexivity. Defined.

Lemma nobody_named_bob : none_named (VStr "bob") Sample.alice_records.
Proof. repeat constructor. Defined.

Lemma write_then_read_witness :
  readJson usersFile (snd (writeJson usersFile (VArr [VNum S754_nan]) Sample.empty_dir))
    = (Ok (VArr [VNull]),
       snd (writeJson usersFile (VArr [VNum S754_nan]) Sample.empty_dir)).
Proof.
  apply (write_then_read usersFile (VArr [VNum S754_nan]) Sample.empty_dir).
  - discriminate.
  - reflexivity.
Defined.

Lemma requests_write_their_file_only_witness :
  file_at progressFile
    (snd (Sample.run (Register (VObj Sample.alice_fields)) Sample.empty_dir))
  = file_at progressFile Sample.empty_dir.
Proof.
  apply (requests_write_their_file_only
           Sample.Number_toString Sample.hmac_sha256_hex Sample.e0
           (Register (VObj Sample.alice_fields)) Sample.empty_dir progressFile).
  discriminate.
Defined.

Lemma register_succeeds_iff_fresh_witness :
  ~ In (VStr "bob") (map username_of Sample.alice_records)
  /\ fst (Sample.run (Register (VObj Sample.bob_fields)) Sample.with_alice)
     = Reply 200 (message_body "User registered successfully.").
Proof.
  assert (Hfresh : ~ In (VStr "bob") (map username_of Sample.alice_records)).
  { simpl. intros [ H | [] ]. discriminate H. }
  split; [ exact Hfresh | ].
  apply (proj1 (proj2 (register_succeeds_iff_fresh
           Sample.Number_toString Sample.hmac_sha256_hex Sample.e0
           Sample.bob_fields Sample.with_alice Sample.alice_records "bob" "s3cret"
           eq_refl alice_records_are_users eq_refl
           ltac:(discriminate) eq_refl ltac:(discriminate)))).
  exact Hfresh.
Defined.

Lemma registration_stores_hashed_record_witness :
  exists rec,
    loaded usersFile
      (snd (Sample.run (Register (VObj Sample.bob_fields)) Sample.with_alice))
      = VArr (map json_slot Sample.alice_records ++ [VObj rec])
    /\ lookup "passwordHash" rec
       = Some (VStr (Sample.hmac_sha256_hex (random_hex Sample.e0) "s3cret"))
    /\ has_key "password" (VObj rec) = false.
Proof.
  destruct (registration_stores_hashed_record
              Sample.Number_toString Sample.hmac_sha256_hex Sample.e0
              Sample.bob_fields Sample.with_alice Sample.alice_records
              "bob" "s3cret"
              eq_refl eq_refl ltac:(discriminate) eq_refl ltac:(discriminate)
              nobody_named_bob eq_refl)
    as (rec & Hload & _ & Hhash & _ & _ & Hpass & _).
  exists rec. auto.
Defined.

Lemma register_rejects_non_string_password_witness :
  typeof (prop "password" Sample.numeric_password) <> "string"
  /\ fst (Sample.run (Register (VObj Sample.numeric_password)) Sample.with_alice)
     = Uncaught (TypeError "The data argument must be of type string").
Proof.
  assert (Htype : typeof (prop "password" Sample.numeric_password) <> "string")
    by discriminate.
  split; [ exact Htype | ].
  apply (proj2 (register_rejects_non_string_password
           Sample.Number_toString Sample.hmac_sha256_hex Sample.e0
           Sample.numeric_password Sample.with_alice Htype)
         Sample.alice_records); try reflexivity.
  exact nobody_named_bob.
Defined.

Lemma registration_lost_on_write_failure_witness :
  write_ok Sample.read_only_dir usersFile = false
  /\ fst (Sample.run (Register (VObj Sample.alice_fields)) Sample.read_only_dir)
     = Reply 200 (message_body "User registered successfully.")
  /\ fst (Sample.run (Login (VObj Sample.alice_fields))
            (snd (Sample.run (Register (VObj Sample.alice_fields))
                    Sample.read_only_dir)))
     = Reply 400 (error_body "Invalid credentials.").
Proof.
  split; [ reflexivity | ].
  destruct (registration_lost_on_write_failure
              Sample.Number_toString Sample.hmac_sha256_hex Sample.e0 Sample.e0
              Sample.alice_fields Sample.read_only_dir [] "alice" "pw123"
              eq_refl eq_refl ltac:(discriminate) eq_refl ltac:(discriminate)
              ltac:(constructor) eq_refl)
    as (Hreply & _ & _ & Hlogin).
  split; [ exact Hreply | exact Hlogin ].
Defined.

Lemma corrupt_users_file_is_replaced_witness :
  file_at usersFile Sample.broken_dir = Stored (Malformed "[{")
  /\ fst (Sample.run (Register (VObj Sample.alice_fields)) Sample.broken_dir)
     = Reply 200 (message_body "User registered successfully.")
  /\ console (snd (Sample.run (Register (VObj Sample.alice_fields)) Sample.broken_dir))
     = ["Error reading data/users.json"].
Proof.
  split; [ reflexivity | ].
  destruct (corrupt_users_file_is_replaced
              Sample.Number_toString Sample.hmac_sha256_hex Sample.e0
              Sample.alice_fields Sample.broken_dir "alice" "pw123"
              (or_intror (ex_intro _ "[{" eq_refl))
              eq_refl ltac:(discriminate) eq_refl ltac:(discriminate) eq_refl)
    as (Hreply & _ & Hconsole).
  split; [ exact Hreply | exact Hconsole ].
Defined.

Lemma login_without_string_password_witness :
  typeof (prop "password" Sample.no_password) <> "string"
  /\ exists err,
       fst (Sample.run (Login (VObj Sample.no_password)) Sample.with_alice)
         = Uncaught err.
Proof.
  assert (Htype : typeof (prop "password" Sample.no_password) <> "string")
    by discriminate.
  split; [ exact Htype | ].
  apply (proj2 (login_without_string_password
           Sample.Number_toString Sample.hmac_sha256_hex Sample.e0
           Sample.no_password Sample.with_alice Sample.alice_records
           eq_refl Htype) 0 Sample.alice_props).
  exact alice_is_first.
Defined.

Lemma profile_found_iff_registered_witness :
  fst (Sample.run (GetUser "carol") Sample.with_alice)
    = Reply 404 (error_body "User not found.").
Proof.
  apply (proj1 (proj2 (profile_found_iff_registered
           Sample.Number_toString Sample.hmac_sha256_hex Sample.e0
           "carol" Sample.with_alice Sample.alice_records
           eq_refl alice_records_are_users))).
  simpl. intros [ H | [] ]. discriminate H.
Defined.

Lemma points_show_in_profile_witness :
  exists profile,
    fst (Sample.run (GetUser "alice")
           (snd (Sample.run (AddPoints "alice" (VObj Sample.five_points))
                   Sample.with_alice)))
      = Reply 200 (VObj profile)
    /\ prop "points" profile
       = json_image (VNum (num_add (S754_zero false) (num_of_Z 5)))
    /\ lookup "passwordHash" profile = None
    /\ lookup "salt" profile = None.
Proof.
  apply (points_show_in_profile
           Sample.Number_toString Sample.hmac_sha256_hex Sample.e0 Sample.e0
           "alice" Sample.five_points Sample.with_alice Sample.alice_records 0
           Sample.alice_props (S754_zero false) (num_of_Z 5)).
  - reflexivity.
  - reflexivity.
  - exact alice_records_are_users.
  - exact alice_is_first.
  - apply points_number; [ reflexivity | discriminate ].
  - reflexivity.
Defined.

Lemma points_change_nothing_else_witness :
  exists us' ps',
    loaded usersFile
      (snd (Sample.run (AddPoints "alice" (VObj Sample.five_points)) Sample.with_alice))
      = VArr us'
    /\ length us' = length Sample.alice_records
    /\ nth_error us' 0 = Some (VObj ps')
    /\ (forall j, j <> 0 -> nth_error us' j = nth_error Sample.alice_records j)
    /\ (forall k, k <> "points" -> lookup k ps' = lookup k Sample.alice_props).
Proof.
  apply (points_change_nothing_else
           Sample.Number_toString Sample.hmac_sha256_hex Sample.e0
           "alice" Sample.five_points Sample.with_alice Sample.alice_records 0
           Sample.alice_props (num_of_Z 5)).
  - reflexivity.
  - reflexivity.
  - exact alice_records_stable.
  - exact alice_is_first.
  - reflexivity.
Defined.

Lemma post_then_list_witness :
  fst (Sample.run ListPosts
         (snd (Sample.run (CreatePost (VObj Sample.full_post)) Sample.empty_dir)))
    = Reply 200 (VArr (map json_slot [] ++ [stored_post Sample.e0 Sample.full_post])).
Proof.
  apply (proj1 (proj2 (post_then_list
           Sample.Number_toString Sample.hmac_sha256_hex Sample.e0 Sample.e0
           Sample.full_post Sample.empty_dir [] eq_refl eq_refl eq_refl eq_refl))).
Defined.

Lemma progress_of_others_unchanged_witness :
  fst (Sample.run (ListProgress "alice")
         (snd (Sample.run (LogProgress "bob" (VObj Sample.steps_500)) Sample.empty_dir)))
    = fst (Sample.run (ListProgress "alice") Sample.empty_dir).
Proof.
  apply (proj1 (progress_of_others_unchanged
           Sample.Number_toString Sample.hmac_sha256_hex Sample.e0 Sample.e0
           "bob" "alice" Sample.steps_500 Sample.empty_dir []
           ltac:(discriminate) eq_refl eq_refl eq_refl ltac:(constructor) eq_refl)).
Defined.

Lemma usernames_unique_after_any_run_witness :
  file_at usersFile Sample.empty_dir = Missing
  /\ unique_usernames
       (serve_all Sample.Number_toString Sample.hmac_sha256_hex
          Sample.two_registrations Sample.empty_dir).
Proof.
  split; [ reflexivity | ].
  apply (usernames_unique_after_any_run
           Sample.Number_toString Sample.hmac_sha256_hex
           Sample.two_registrations Sample.empty_dir).
  - left. reflexivity.
  - repeat constructor.
Defined.

Lemma login_still_works_after_points_witness :
  exists profile,
    fst (Sample.run (Login (VObj Sample.alice_fields))
           (snd (Sample.run (AddPoints "alice" (VObj Sample.five_points))
                   Sample.with_alice)))
      = Reply 200 (VObj profile)
    /\ prop "points" profile
       = json_image (VNum (num_add (S754_zero false) (num_of_Z 5))).
Proof.
  apply (login_still_works_after_points
           Sample.Number_toString Sample.hmac_sha256_hex Sample.e0 Sample.e0
           "alice" Sample.five_points Sample.alice_fields Sample.with_alice
           Sample.alice_records 0 Sample.alice_props (S754_zero false) (num_of_Z 5)).
  - reflexivity.
  - reflexivity.
  - exact alice_records_are_users.
  - exact alice_is_first.
  - apply points_number; [ reflexivity | discriminate ].
  - reflexivity.
  - reflexivity.
  - reflexivity.
Defined.

Lemma logs_only_grow_witness :
  stable_list progressFile Sample.empty_dir
  /\ exists more,
       stored_list progressFile
         (serve_all Sample.Number_toString Sample.hmac_sha256_hex
            Sample.two_registrations Sample.empty_dir)
       = (stored_list progressFile Sample.empty_dir ++ more)%list.
Proof.
  assert (Hstable : stable_list progressFile Sample.empty_dir).
  { exists []. split; reflexivity. }
  split; [ exact Hstable | ].
  apply (logs_only_grow Sample.Number_toString Sample.hmac_sha256_hex
           Sample.two_registrations Sample.empty_dir progressFile).
  - discriminate.
  - exact Hstable.
Defined.

Lemma users_are_never_removed_witness :
  exists more,
    user_names (serve_all Sample.Number_toString Sample.hmac_sha256_hex
                  Sample.two_registrations Sample.with_alice)
      = (user_names Sample.with_alice ++ more)%list.
Proof.
  apply (users_are_never_removed Sample.Number_toString Sample.hmac_sha256_hex
           Sample.two_registrations Sample.with_alice).
  - exact with_alice_unique.
  - repeat constructor.
Defined.
